(** * Quiet hours and deferred notification delivery

    A shallow embedding of the push-notification quiet-hours repository:

    - [src/backend/src/services/QuietHoursService.ts]
    - [src/backend/src/services/NotificationService.ts]
    - [src/backend/src/entities/QuietHoursEntity.ts]
    - the repository class [QuietHoursRepository] and the routes of
      [/api/quiet-hours] (src/unnamed/part_000)
    - the middleware [authMiddleware] (src/unnamed/part_001)
    - [formatTime] and [validateQuietHourInput] of
      [src/frontend/src/components/QuietHoursSettings.tsx]

    Asynchronous methods are modelled sequentially: every service call runs to
    completion before the next one starts, so a [Promise<T>] that resolves is
    a value of [Result T] and one that rejects is [Throw e].  Calls to the
    logger have no effect on any value the services compute and are left
    out; faults of the database are not modelled. *)

From Stdlib Require Import ZArith Ascii String List Bool Lia Sorted.
From stdpp Require Import base gmap strings list.

Local Open Scope string_scope.
Local Open Scope list_scope.
Local Open Scope Z_scope.

(** ** JavaScript values *)

Module JS.

(** A JavaScript [number], as far as the services use it: the times of day,
    the epoch milliseconds of a [Date] and the counters are integers, and
    [NaN] is what arithmetic on a missing or unreadable field yields. *)
Inductive number : Type :=
  | Int (z : Z)
  | NaN.

(** Comparison operators: every comparison with [NaN] is false. *)
Definition lt (a b : number) : bool :=
  match a, b with
  | Int x, Int y => x <? y
  | _, _ => false
  end.

Definition gt (a b : number) : bool := lt b a.

Definition ge (a b : number) : bool :=
  match a, b with
  | Int x, Int y => y <=? x
  | _, _ => false
  end.

Definition add (a b : number) : number :=
  match a, b with
  | Int x, Int y => Int (x + y)
  | _, _ => NaN
  end.

Definition mul (a b : number) : number :=
  match a, b with
  | Int x, Int y => Int (x * y)
  | _, _ => NaN
  end.

(** [\d] of a regular expression: the ten ASCII digits. *)
Definition isDigit (c : ascii) : bool :=
  let n := N_of_ascii c in (48 <=? n)%N && (n <=? 57)%N.

Definition digitValue (c : ascii) : Z := Z.of_N (N_of_ascii c) - 48.

Fixpoint decimal (s : string) (acc : Z) : number :=
  match s with
  | EmptyString => Int acc
  | String c rest =>
      if isDigit c then decimal rest (10 * acc + digitValue c) else NaN
  end.

(** [Number(s)] on a string.  The model is exact on the empty string (0) and
    on strings of decimal digits, which is every field that
    [time.split(":")] produces from a string accepted by
    [validateTimeFormat]; every other string is read as [NaN] (the literals
    with a sign, a fraction, an exponent, a radix prefix or surrounding white
    space, which JavaScript would read as a number, cannot pass the format
    check). *)
Definition Number (s : string) : number := decimal s 0.

(** [s.split(sep)] for a one-character separator. *)
Fixpoint split (sep : ascii) (s : string) : list string :=
  match s with
  | EmptyString => [EmptyString]
  | String c rest =>
      if Ascii.eqb c sep then EmptyString :: split sep rest
      else match split sep rest with
           | field :: fields => String c field :: fields
           | [] => [String c EmptyString]
           end
  end.

(** A [Date]: its time value, the milliseconds since the epoch in UTC, or
    [NaN] for an invalid date. *)
Record Date : Type := mkDate { getTime : number }.

Definition msPerMinute : Z := 60000.
Definition msPerHour : Z := 3600000.

Definition getUTCHours (d : Date) : number :=
  match getTime d with
  | Int t => Int ((t / msPerHour) mod 24)
  | NaN => NaN
  end.

Definition getUTCMinutes (d : Date) : number :=
  match getTime d with
  | Int t => Int ((t / msPerMinute) mod 60)
  | NaN => NaN
  end.

(** An [Error] object with the two fields the services set and the routes
    read. *)
Record Error : Type := mkError { name : string; message : string }.

(** The outcome of awaiting a promise: it resolved with a value or it
    rejected with an error. *)
Inductive Result (A : Type) : Type :=
  | Ok (a : A)
  | Throw (e : Error).

Arguments Ok {A} a.
Arguments Throw {A} e.

(** A service call on a state [S]: it resolves or rejects, and leaves a
    state. *)
Definition M (S A : Type) : Type := S -> Result A * S.

Definition ret {S A : Type} (a : A) : M S A := fun s => (Ok a, s).

Definition throw {S A : Type} (e : Error) : M S A := fun s => (Throw e, s).

Definition bind {S A B : Type} (m : M S A) (k : A -> M S B) : M S B :=
  fun s =>
    match m s with
    | (Ok a, s') => k a s'
    | (Throw e, s') => (Throw e, s')
    end.

Definition lift {S A : Type} (r : Result A) : M S A := fun s => (r, s).

(** [try { body } catch (error) { handler }] *)
Definition tryCatch {S A : Type} (body : M S A) (handler : Error -> M S A)
  : M S A :=
  fun s =>
    match body s with
    | (Ok a, s') => (Ok a, s')
    | (Throw e, s') => handler e s'
    end.

End JS.

Import JS.

Notation "'await' x <- m ; k" := (bind m (fun x => k))
  (at level 10, x name, m at level 100, k at level 200).
Notation "'perform' m ; k" := (bind m (fun _ => k))
  (at level 10, m at level 100, k at level 200).

(** ** QuietHoursEntity and the repository *)

Record QuietHoursEntity : Type := mkQuietHoursEntity {
  id : string;
  userId : string;
  startTime : string;
  endTime : string;
  createdAt : Date;
  updatedAt : Date
}.

Record QuietHourInput : Type := mkQuietHourInput {
  in_startTime : string;
  in_endTime : string
}.

(** The rows of table [quiet_hours]. *)
Definition Table : Type := list QuietHoursEntity.

(** What the database supplies when it saves a row: the generated primary key
    and the timestamp of the write. *)
Record Generated : Type := mkGenerated { gen_id : string; gen_now : Date }.

Module QuietHoursRepository.

(** [order: { startTime: "ASC" }]: a stable insertion sort on the text of
    [startTime]. *)
Fixpoint insertByStart (e : QuietHoursEntity) (l : list QuietHoursEntity)
  : list QuietHoursEntity :=
  match l with
  | [] => [e]
  | x :: rest =>
      if String.leb (startTime e) (startTime x) then e :: x :: rest
      else x :: insertByStart e rest
  end.

Definition orderByStart (l : list QuietHoursEntity) : list QuietHoursEntity :=
  fold_right insertByStart [] l.

Definition findByUserId (uid : string) (db : Table) : list QuietHoursEntity :=
  orderByStart (List.filter (fun e => String.eqb (userId e) uid) db).

Definition create (g : Generated) (uid : string) (input : QuietHourInput)
  (db : Table) : Result QuietHoursEntity * Table :=
  let entity := {| id := gen_id g; userId := uid;
                   startTime := in_startTime input;
                   endTime := in_endTime input;
                   createdAt := gen_now g; updatedAt := gen_now g |} in
  (Ok entity, db ++ [entity]).

Definition notFound : Error :=
  {| name := "NotFoundError"; message := "Quiet hour period not found." |}.

Definition owns (uid i : string) (e : QuietHoursEntity) : bool :=
  String.eqb (id e) i && String.eqb (userId e) uid.

Definition update (g : Generated) (uid i : string) (input : QuietHourInput)
  (db : Table) : Result QuietHoursEntity * Table :=
  match List.find (owns uid i) db with
  | None => (Throw notFound, db)
  | Some entity =>
      let saved := {| id := id entity; userId := userId entity;
                      startTime := in_startTime input;
                      endTime := in_endTime input;
                      createdAt := createdAt entity;
                      updatedAt := gen_now g |} in
      (Ok saved,
       List.map (fun e => if String.eqb (id e) (id entity) then saved else e) db)
  end.

Definition delete (uid i : string) (db : Table) : Result unit * Table :=
  match List.find (owns uid i) db with
  | None => (Throw notFound, db)
  | Some entity =>
      (Ok tt, List.filter (fun e => negb (String.eqb (id e) (id entity))) db)
  end.

End QuietHoursRepository.

(** ** QuietHoursService *)

Module QuietHoursService.

Definition findByUserId (uid : string) : M Table (list QuietHoursEntity) :=
  fun db => (Ok (QuietHoursRepository.findByUserId uid db), db).

(** [String.prototype.split(":").map(Number)], destructured as [[h, m]]; a
    missing field is [undefined], which arithmetic turns into [NaN]. *)
Definition timeToMinutes (time : string) : number :=
  let fields := List.map Number (split ":" time) in
  let h := List.nth 0 fields NaN in
  let m := List.nth 1 fields NaN in
  add (mul h (Int 60)) m.

Definition periodsOverlap (s1 e1 s2 e2 : number) : bool :=
  let range1 :=
    if gt e1 s1 then [(s1, e1)] else [(s1, Int 1440); (Int 0, e1)] in
  let range2 :=
    if gt e2 s2 then [(s2, e2)] else [(s2, Int 1440); (Int 0, e2)] in
  existsb (fun a =>
    existsb (fun b => lt (fst a) (snd b) && lt (fst b) (snd a)) range2)
    range1.

Definition isTimeInPeriod (time start end_ : number) : bool :=
  if lt start end_ then ge time start && lt time end_
  else ge time start || lt time end_.

(** [RegExp.prototype.test] for [/^([01]\d|2[0-3]):([0-5]\d)$/]. *)
Definition between (lo hi c : ascii) : bool :=
  (N_of_ascii lo <=? N_of_ascii c)%N && (N_of_ascii c <=? N_of_ascii hi)%N.

Definition timeRegex_test (s : string) : bool :=
  match s with
  | String h1 (String h2 (String c (String m1 (String m2 EmptyString)))) =>
      ((between "0" "1" h1 && isDigit h2)
       || (Ascii.eqb h1 "2" && between "0" "3" h2))
      && Ascii.eqb c ":"
      && (between "0" "5" m1 && isDigit m2)
  | _ => false
  end.

Definition invalidFormat : Error :=
  {| name := "ValidationError";
     message := "Start and end times must be in HH:mm format." |}.

Definition sameStartEnd : Error :=
  {| name := "ValidationError";
     message := "Start and end times cannot be the same." |}.

Definition overlapError : Error :=
  {| name := "ValidationError";
     message := "Quiet hour periods cannot overlap." |}.

Definition validateTimeFormat (startTime endTime : string) : Result unit :=
  if negb (timeRegex_test startTime) || negb (timeRegex_test endTime)
  then Throw invalidFormat
  else if String.eqb startTime endTime then Throw sameStartEnd
  else Ok tt.

(** [editingId && period.id === editingId]: an absent or empty [editingId]
    is falsy and excludes nothing. *)
Definition isEdited (editingId : option string) (period : QuietHoursEntity)
  : bool :=
  match editingId with
  | Some e => negb (String.eqb e "") && String.eqb (id period) e
  | None => false
  end.

Definition hasOverlap (input : QuietHourInput)
  (existing : list QuietHoursEntity) (editingId : option string) : bool :=
  let inputStart := timeToMinutes (in_startTime input) in
  let inputEnd := timeToMinutes (in_endTime input) in
  (fix loop (periods : list QuietHoursEntity) : bool :=
     match periods with
     | [] => false
     | period :: rest =>
         if isEdited editingId period then loop rest
         else
           let periodStart := timeToMinutes (startTime period) in
           let periodEnd := timeToMinutes (endTime period) in
           if periodsOverlap inputStart inputEnd periodStart periodEnd
           then true
           else loop rest
     end) existing.

Definition getQuietHoursForUser (uid : string)
  : M Table (list QuietHoursEntity) :=
  findByUserId uid.

Definition createQuietHour (g : Generated) (uid : string)
  (input : QuietHourInput) : M Table QuietHoursEntity :=
  perform lift (validateTimeFormat (in_startTime input) (in_endTime input));
  await existing <- findByUserId uid;
  if hasOverlap input existing None then throw overlapError
  else QuietHoursRepository.create g uid input.

Definition updateQuietHour (g : Generated) (uid i : string)
  (input : QuietHourInput) : M Table QuietHoursEntity :=
  perform lift (validateTimeFormat (in_startTime input) (in_endTime input));
  await existing <- findByUserId uid;
  if negb (existsb (fun qh => String.eqb (id qh) i) existing)
  then throw QuietHoursRepository.notFound
  else if hasOverlap input existing (Some i) then throw overlapError
  else QuietHoursRepository.update g uid i input.

Definition deleteQuietHour (uid i : string) : M Table unit :=
  await existing <- findByUserId uid;
  if negb (existsb (fun qh => String.eqb (id qh) i) existing)
  then throw QuietHoursRepository.notFound
  else QuietHoursRepository.delete uid i.

(** [isWithinQuietHours] only reads the table, so it is a function of it. *)
Definition isWithinQuietHours (uid : string) (date : Date) (db : Table)
  : bool :=
  let quietHours := QuietHoursRepository.findByUserId uid db in
  if Nat.eqb (length quietHours) 0 then false
  else
    let minutes := add (mul (getUTCHours date) (Int 60)) (getUTCMinutes date) in
    (fix loop (periods : list QuietHoursEntity) : bool :=
       match periods with
       | [] => false
       | period :: rest =>
           let start := timeToMinutes (startTime period) in
           let end_ := timeToMinutes (endTime period) in
           if isTimeInPeriod minutes start end_ then true else loop rest
       end) quietHours.

End QuietHoursService.

(** ** NotificationService *)

Record NotificationPayload : Type := mkNotificationPayload {
  n_userId : string;
  n_message : string;
  n_data : option string;
  timestamp : Date;
  relevanceExpiresAt : option Date
}.

(** [interface QueuedNotification extends NotificationPayload]. *)
Record QueuedNotification : Type := mkQueuedNotification {
  payload : NotificationPayload;
  queuedAt : Date
}.

(** One call of the push provider and how it ended. *)
Definition Attempt : Type := NotificationPayload * Result unit.

(** What the notification service acts on: the table behind its
    [QuietHoursService], the module-level [notificationQueue] map, and the
    calls made to the push provider so far. *)
Record World : Type := mkWorld {
  table : Table;
  notificationQueue : gmap string (list QueuedNotification);
  pushes : list Attempt
}.

Module NotificationService.

Section Provider.

(** The push provider behind [deliverNotification]: given the calls made so
    far and a payload, the call resolves or rejects.  A queued notification
    is handed over as the payload it extends. *)
Variable provider : list Attempt -> NotificationPayload -> Result unit.

Definition deliverNotification (p : NotificationPayload) : M World unit :=
  fun w =>
    let outcome := provider (pushes w) p in
    (outcome,
     {| table := table w;
        notificationQueue := notificationQueue w;
        pushes := pushes w ++ [(p, outcome)] |}).

(** [now] is the value of [new Date()] in this call. *)
Definition queueNotification (now : Date) (p : NotificationPayload)
  : M World unit :=
  fun w =>
    let userQueue := default [] (notificationQueue w !! n_userId p) in
    let userQueue' := userQueue ++ [{| payload := p; queuedAt := now |}] in
    (Ok tt,
     {| table := table w;
        notificationQueue := <[n_userId p := userQueue']> (notificationQueue w);
        pushes := pushes w |}).

Definition isWithinQuietHours (uid : string) (date : Date) : M World bool :=
  fun w => (Ok (QuietHoursService.isWithinQuietHours uid date (table w)), w).

Definition sendNotification (now : Date) (p : NotificationPayload)
  : M World bool :=
  tryCatch
    (await isQuiet <- isWithinQuietHours (n_userId p) (timestamp p);
     if isQuiet
     then (perform queueNotification now p; ret false)
     else (perform deliverNotification p; ret true))
    (fun error => throw error).

(** [notification.relevanceExpiresAt && now > notification.relevanceExpiresAt];
    two dates compare by their time values. *)
Definition isExpired (now : Date) (notification : QueuedNotification) : bool :=
  match relevanceExpiresAt (payload notification) with
  | Some expires => gt (getTime now) (getTime expires)
  | None => false
  end.

(** The [for ... of] loop of [deliverQueuedNotifications], with its two
    accumulators; [delivered] tells whether the [try] block ran to its end
    ([deliveredCount++]) or the [catch] block ran
    ([remainingQueue.push(notification)]). *)
Fixpoint deliverEach (now : Date) (userQueue : list QueuedNotification)
  (deliveredCount : Z) (remainingQueue : list QueuedNotification)
  : M World (Z * list QueuedNotification) :=
  match userQueue with
  | [] => ret (deliveredCount, remainingQueue)
  | notification :: rest =>
      if isExpired now notification
      then deliverEach now rest deliveredCount remainingQueue
      else
        await delivered <-
          tryCatch
            (perform deliverNotification (payload notification); ret true)
            (fun error => ret false);
        if delivered
        then deliverEach now rest (deliveredCount + 1) remainingQueue
        else deliverEach now rest deliveredCount
               (remainingQueue ++ [notification])
  end.

Definition storeRemaining (uid : string)
  (remainingQueue : list QueuedNotification) : M World unit :=
  fun w =>
    (Ok tt,
     {| table := table w;
        notificationQueue :=
          if Nat.ltb 0 (length remainingQueue)
          then <[uid := remainingQueue]> (notificationQueue w)
          else delete uid (notificationQueue w);
        pushes := pushes w |}).

Definition deliverQueuedNotifications (now : Date) (uid : string)
  : M World Z :=
  fun w =>
    let userQueue := default [] (notificationQueue w !! uid) in
    (await swept <- deliverEach now userQueue 0 [];
     perform storeRemaining uid (snd swept);
     ret (fst swept)) w.

Definition getQueuedNotifications (uid : string) (w : World)
  : list QueuedNotification :=
  default [] (notificationQueue w !! uid).

End Provider.

(** The provider as the repository ships it: [deliverNotification] logs,
    waits ten milliseconds and resolves. *)
Definition simulated : list Attempt -> NotificationPayload -> Result unit :=
  fun _ _ => Ok tt.

End NotificationService.

(** ** The scheduler loop of the notification service *)

Module Scheduler.

Section Provider.

Variable provider : list Attempt -> NotificationPayload -> Result unit.

(** [processAllQueuedNotifications].  The world keeps the queue map without
    the insertion order that [notificationQueue.keys()] follows, and has no
    clock, so the loop takes what it reads from both: the keys in the order
    the iterator yields them, each with the value of [new Date()] in the loop
    body and the value of [new Date()] in the sweep it may start. *)
Fixpoint processAllQueuedNotifications
  (keys : list (string * (Date * Date))) : M World unit :=
  match keys with
  | [] => ret tt
  | (userId, (now, sweepNow)) :: rest =>
      await isQuiet <- NotificationService.isWithinQuietHours userId now;
      perform (if negb isQuiet
               then (perform NotificationService.deliverQueuedNotifications
                               provider sweepNow userId;
                     ret tt)
               else ret tt);
      processAllQueuedNotifications rest
  end.

End Provider.

End Scheduler.

(** ** The routes of [/api/quiet-hours] and the authentication middleware *)

Module Routes.

(** [req.user], as the authentication leaves it. *)
Record User : Type := mkUser { user_id : string }.

Inductive Body : Type :=
  | Message (text : string)
  | Periods (periods : list QuietHoursEntity)
  | Period (period : QuietHoursEntity).

(** How a handler ends: [res.status(s).json(body)], [res.status(s).send()]
    or [next(error)]. *)
Inductive Response : Type :=
  | Json (status : Z) (body : Body)
  | Send (status : Z)
  | Next (error : Error).

Definition Handler : Type := option User -> Table -> Response * Table.

(** [req.user?.id], as [if (!userId)] tests it: an empty id is falsy. *)
Definition userIdOf (user : option User) : option string :=
  match user with
  | Some u => if String.eqb (user_id u) "" then None else Some (user_id u)
  | None => None
  end.

Definition unauthorized : Response := Json 401 (Message "Unauthorized").

(** [GET /] *)
Definition get : Handler :=
  fun user db =>
    match userIdOf user with
    | None => (unauthorized, db)
    | Some userId =>
        match QuietHoursService.getQuietHoursForUser userId db with
        | (Ok periods, db') => (Json 200 (Periods periods), db')
        | (Throw error, db') => (Next error, db')
        end
    end.

(** [POST /] with the body [{ startTime, endTime }]. *)
Definition post (g : Generated) (startTime endTime : string) : Handler :=
  fun user db =>
    match userIdOf user with
    | None => (unauthorized, db)
    | Some userId =>
        match QuietHoursService.createQuietHour g userId
                {| in_startTime := startTime; in_endTime := endTime |} db with
        | (Ok period, db') => (Json 201 (Period period), db')
        | (Throw error, db') =>
            if String.eqb (name error) "ValidationError"
            then (Json 400 (Message (message error)), db')
            else (Next error, db')
        end
    end.

(** [PUT /:id] *)
Definition put (g : Generated) (i startTime endTime : string) : Handler :=
  fun user db =>
    match userIdOf user with
    | None => (unauthorized, db)
    | Some userId =>
        match QuietHoursService.updateQuietHour g userId i
                {| in_startTime := startTime; in_endTime := endTime |} db with
        | (Ok updated, db') => (Json 200 (Period updated), db')
        | (Throw error, db') =>
            if String.eqb (name error) "ValidationError"
            then (Json 400 (Message (message error)), db')
            else if String.eqb (name error) "NotFoundError"
            then (Json 404 (Message (message error)), db')
            else (Next error, db')
        end
    end.

(** [DELETE /:id] *)
Definition delete (i : string) : Handler :=
  fun user db =>
    match userIdOf user with
    | None => (unauthorized, db)
    | Some userId =>
        match QuietHoursService.deleteQuietHour userId i db with
        | (Ok _, db') => (Send 204, db')
        | (Throw error, db') =>
            if String.eqb (name error) "NotFoundError"
            then (Json 404 (Message (message error)), db')
            else (Next error, db')
        end
    end.

(** What passport hands to the callback of [authMiddleware]. *)
Record Authentication : Type := mkAuthentication {
  auth_err : option Error;
  auth_user : option User
}.

(** [authMiddleware], followed by the handler that [next()] runs. *)
Definition authMiddleware (a : Authentication) (next : Handler)
  : Table -> Response * Table :=
  fun db =>
    match auth_err a with
    | Some _ => (Json 500 (Message "Authentication error"), db)
    | None =>
        match auth_user a with
        | None => (unauthorized, db)
        | Some user => next (Some user) db
        end
    end.

End Routes.

(** ** The settings form of the frontend *)

Module QuietHoursSettings.

(** A quiet hour period as the backend returns it. *)
Record QuietHourPeriod : Type := mkQuietHourPeriod {
  id : string;
  startTime : string;
  endTime : string;
  createdAt : string;
  updatedAt : string
}.

(** [String.prototype.padStart(2, "0")] *)
Definition padStart2 (s : string) : string :=
  match String.length s with
  | O => "00" ++ s
  | S O => "0" ++ s
  | _ => s
  end%string.

(** [formatTime]; [None] is the [TypeError] of [m.padStart] on a time
    without a colon. *)
Definition formatTime (time : string) : option string :=
  if String.eqb time "" then Some ""
  else
    match split ":" time with
    | h :: m :: _ => Some (padStart2 h ++ ":" ++ padStart2 m)%string
    | _ => None
    end.

Definition toMinutes (t : string) : number :=
  let fields := List.map Number (split ":" t) in
  let h := List.nth 0 fields NaN in
  let m := List.nth 1 fields NaN in
  add (mul h (Int 60)) m.

Definition periodsOverlap (s1 e1 s2 e2 : number) : bool :=
  let range1 :=
    if gt e1 s1 then [(s1, e1)] else [(s1, Int 1440); (Int 0, e1)] in
  let range2 :=
    if gt e2 s2 then [(s2, e2)] else [(s2, Int 1440); (Int 0, e2)] in
  existsb (fun a =>
    existsb (fun b => lt (fst a) (snd b) && lt (fst b) (snd a)) range2)
    range1.

(** [validateQuietHourInput]: the message to show, or [None] for [null].
    Its [timeRegex] is the pattern of the backend. *)
Definition validateQuietHourInput (input : QuietHourInput)
  (existing : list QuietHourPeriod) (editingId : option string)
  : option string :=
  if negb (QuietHoursService.timeRegex_test (in_startTime input))
     || negb (QuietHoursService.timeRegex_test (in_endTime input))
  then Some "Start and end times must be in HH:mm format."
  else if String.eqb (in_startTime input) (in_endTime input)
  then Some "Start and end times cannot be the same."
  else
    let inputStart := toMinutes (in_startTime input) in
    let inputEnd := toMinutes (in_endTime input) in
    (fix loop (periods : list QuietHourPeriod) : option string :=
       match periods with
       | [] => None
       | period :: rest =>
           if match editingId with
              | Some e => negb (String.eqb e "") && String.eqb (id period) e
              | None => false
              end
           then loop rest
           else
             let s2 := toMinutes (startTime period) in
             let e2 := toMinutes (endTime period) in
             if periodsOverlap inputStart inputEnd s2 e2
             then Some "Quiet hour periods cannot overlap."
             else loop rest
       end) existing.

End QuietHoursSettings.

(** ** The specification's wording of the interval model *)

Module Spec.

(** Section 4.2: an interval [(s, e)] with [e > s] stays one sub-range
    [[s, e)]; a wrapping interval ([e <= s]) splits into [[s, 1440)] and
    [[0, e)]. *)
Definition subRanges (s e : Z) : list (Z * Z) :=
  if Z_lt_dec s e then [(s, e)] else [(s, 1440); (0, e)].

(** Two intervals overlap iff any sub-range pair satisfies
    [a1 < b2 && b1 < a2]. *)
Definition overlaps (s1 e1 s2 e2 : Z) : Prop :=
  exists a b : Z * Z,
    In a (subRanges s1 e1) /\ In b (subRanges s2 e2) /\
    fst a < snd b /\ fst b < snd a.

(** The number of minutes an interval covers; [s = e] is the full day. *)
Definition duration (s e : Z) : Z :=
  if Z_lt_dec s e then e - s else 1440 - s + e.

(** Two intervals are back to back when the second starts at the minute the
    first ends and both fit into one day. *)
Definition backToBack (s1 e1 s2 e2 : Z) : Prop :=
  e1 = s2 /\ duration s1 e1 + duration s2 e2 <= 1440.

(** Section 4.1: [HH:mm] with HH in 00-23 and mm in 00-59, zero-padded. *)
Definition digitChar (d : Z) : ascii := ascii_of_N (Z.to_N (48 + d)).

Definition pad2 (n : Z) : string :=
  String (digitChar (n / 10)) (String (digitChar (n mod 10)) EmptyString).

Definition isHHmm (text : string) : Prop :=
  exists h m : Z,
    0 <= h <= 23 /\ 0 <= m <= 59 /\
    text = (pad2 h ++ ":" ++ pad2 m)%string.

End Spec.

(** ** Vocabulary of the statements *)

Section Vocabulary.

Import QuietHoursService NotificationService.

(** The hour part and the minute part of the time pattern, on the two digits
    of a number. *)
Definition hoursTest (h : Z) : bool :=
  let h1 := Spec.digitChar (h / 10) in
  let h2 := Spec.digitChar (h mod 10) in
  (between "0" "1" h1 && isDigit h2)
  || (Ascii.eqb h1 "2" && between "0" "3" h2).

Definition minutesTest (m : Z) : bool :=
  between "0" "5" (Spec.digitChar (m / 10))
  && isDigit (Spec.digitChar (m mod 10)).

(** The minute of the day that [isWithinQuietHours] reads off a date. *)
Definition minuteOfDay (date : Date) : number :=
  add (mul (getUTCHours date) (Int 60)) (getUTCMinutes date).

(** Whether a stored window contains a minute of the day. *)
Definition contains (minutes : number) (period : QuietHoursEntity) : bool :=
  isTimeInPeriod minutes (timeToMinutes (startTime period))
    (timeToMinutes (endTime period)).

(** Whether a candidate overlaps a stored window. *)
Definition conflicts (input : QuietHourInput) (period : QuietHoursEntity)
  : bool :=
  periodsOverlap (timeToMinutes (in_startTime input))
    (timeToMinutes (in_endTime input))
    (timeToMinutes (startTime period)) (timeToMinutes (endTime period)).

Definition resolved {A : Type} (r : Result A) : bool :=
  match r with Ok _ => true | Throw _ => false end.

Variable provider : list Attempt -> NotificationPayload -> Result unit.

(** The provider calls one sweep makes over a queue, after the calls [tr]:
    each call with the queued item it is for and how it ended. *)
Fixpoint attemptsOf (now : Date) (tr : list Attempt)
  (queue : list QueuedNotification)
  : list (QueuedNotification * Result unit) :=
  match queue with
  | [] => []
  | x :: rest =>
      if isExpired now x then attemptsOf now tr rest
      else
        let outcome := provider tr (payload x) in
        (x, outcome) :: attemptsOf now (tr ++ [(payload x, outcome)]) rest
  end.

Definition recorded (attempts : list (QueuedNotification * Result unit))
  : list Attempt :=
  List.map (fun a => (payload (fst a), snd a)) attempts.

Definition failedOf (attempts : list (QueuedNotification * Result unit))
  : list QueuedNotification :=
  List.map fst (List.filter (fun a => negb (resolved (snd a))) attempts).

Definition deliveredOf (attempts : list (QueuedNotification * Result unit))
  : Z :=
  Z.of_nat (length (List.filter (fun a => resolved (snd a)) attempts)).

Definition fresh (now : Date) (queue : list QueuedNotification)
  : list QueuedNotification :=
  List.filter (fun x => negb (isExpired now x)) queue.

End Vocabulary.

(** ** Sample data *)

Section Samples.

Definition overnight : QuietHoursEntity :=
  {| id := "w1"; userId := "u1"; startTime := "22:00"; endTime := "07:00";
     createdAt := mkDate (Int 1700000000000);
     updatedAt := mkDate (Int 1700000000000) |}.

(** A provider that rejects the payloads whose message is "down". *)
Definition unreliable : list Attempt -> NotificationPayload -> Result unit :=
  fun _ p =>
    if String.eqb (n_message p) "down"
    then Throw {| name := "Error"; message := "provider unavailable" |}
    else Ok tt.

Definition note (text : string) (at_ : Z) (expires : option Z)
  : NotificationPayload :=
  {| n_userId := "u1"; n_message := text; n_data := None;
     timestamp := mkDate (Int at_);
     relevanceExpiresAt := option_map (fun t => mkDate (Int t)) expires |}.

Definition held (p : NotificationPayload) : QueuedNotification :=
  {| payload := p; queuedAt := mkDate (Int 1704151816000) |}.

Definition stale : NotificationPayload :=
  note "sale ends at midnight" 1704151815123 (Some 1704153600000).
Definition down : NotificationPayload := note "down" 1704151815123 None.
Definition hello : NotificationPayload := note "hello" 1704151815123 None.

Definition morning : Date := mkDate (Int 1704182400000).

Definition night : World :=
  {| table := [overnight];
     notificationQueue := {["u1" := [held stale; held down; held hello]]};
     pushes := [] |}.

Definition idle : World :=
  {| table := [overnight]; notificationQueue := ∅; pushes := [] |}.

Definition onlyStale : World :=
  {| table := [overnight];
     notificationQueue := {["u1" := [held stale]]};
     pushes := [] |}.

End Samples.

(** ** Invariants of the stored state *)

Section Invariants.

Import QuietHoursService NotificationService.

(** Two stored windows of one user do not overlap. *)
Definition apart (p q : QuietHoursEntity) : Prop :=
  userId p = userId q ->
  periodsOverlap (timeToMinutes (startTime p)) (timeToMinutes (endTime p))
    (timeToMinutes (startTime q)) (timeToMinutes (endTime q)) = false.

(** No two rows of the table are overlapping windows of one user. *)
Definition nonOverlapping (db : Table) : Prop := ForallOrdPairs apart db.

(** Ascending order of the start time. *)
Definition byStart (a b : QuietHoursEntity) : Prop :=
  String.leb (startTime a) (startTime b) = true.

(** [id] is the primary key of the table. *)
Definition uniqueIds (db : Table) : Prop := List.NoDup (List.map id db).

(** The rows of the other users. *)
Definition rowsOfOthers (uid : string) (db : Table) : Table :=
  List.filter (fun e => negb (String.eqb (userId e) uid)) db.

(** Every stored queue is non-empty and holds only notifications addressed
    to the user it is stored under. *)
Definition queuesWellFormed (w : World) : Prop :=
  forall (u : string) (q : list QueuedNotification),
    notificationQueue w !! u = Some q ->
    q <> [] /\ Forall (fun x => n_userId (payload x) = u) q.

(** The row a successful [createQuietHour] stores. *)
Definition created (g : Generated) (uid : string) (input : QuietHourInput)
  : QuietHoursEntity :=
  {| id := gen_id g; userId := uid;
     startTime := in_startTime input; endTime := in_endTime input;
     createdAt := gen_now g; updatedAt := gen_now g |}.

(** The row a successful [updateQuietHour] saves in place of [entity]. *)
Definition saved (g : Generated) (input : QuietHourInput)
  (entity : QuietHoursEntity) : QuietHoursEntity :=
  {| id := id entity; userId := userId entity;
     startTime := in_startTime input; endTime := in_endTime input;
     createdAt := createdAt entity; updatedAt := gen_now g |}.

(** The authentication did not yield a user with an id. *)
Definition auth_failed (a : Routes.Authentication) : Prop :=
  Routes.auth_err a <> None \/
  Routes.userIdOf (Routes.auth_user a) = None.

(** A period of the frontend shows a stored window. *)
Definition shows (period : QuietHoursSettings.QuietHourPeriod)
  (e : QuietHoursEntity) : Prop :=
  QuietHoursSettings.id period = id e /\
  QuietHoursSettings.startTime period = startTime e /\
  QuietHoursSettings.endTime period = endTime e.

End Invariants.

(** ** Intervals on the day *)

Section Intervals.

Import QuietHoursService.

(** Turn the boolean comparisons of a goal into facts on integers. *)
Ltac compare_all :=
  repeat match goal with
  | |- context [Z.ltb ?a ?b] => destruct (Z.ltb_spec a b)
  | |- context [Z.leb ?a ?b] => destruct (Z.leb_spec a b)
  | |- context [Z_lt_dec ?a ?b] => destruct (Z_lt_dec a b)
  | H : context [Z.ltb ?a ?b] |- _ => destruct (Z.ltb_spec a b)
  | H : context [Z.leb ?a ?b] |- _ => destruct (Z.leb_spec a b)
  | H : context [Z_lt_dec ?a ?b] |- _ => destruct (Z_lt_dec a b)
  end.

Ltac pick_ranges a b :=
  exists a, b; cbn [fst snd]; split; [auto | split; [auto | lia]].

Lemma isTimeInPeriod_Int (t s e : Z) :
  isTimeInPeriod (Int t) (Int s) (Int e) = true <->
  (s < e /\ s <= t < e) \/ (e <= s /\ (s <= t \/ t < e)).
Proof.
  unfold isTimeInPeriod, ge, lt.
  compare_all; simpl; split; intros; try discriminate; try reflexivity; lia.
Qed.

Lemma periodsOverlap_Int (s1 e1 s2 e2 : Z) :
  periodsOverlap (Int s1) (Int e1) (Int s2) (Int e2) = true <->
  Spec.overlaps s1 e1 s2 e2.
Proof.
  unfold periodsOverlap, Spec.overlaps, Spec.subRanges, gt, lt.
  destruct (Z.ltb_spec s1 e1), (Z.ltb_spec s2 e2);
    destruct (Z_lt_dec s1 e1), (Z_lt_dec s2 e2); try lia;
    cbn [existsb fst snd In];
    rewrite ?orb_false_r, ?orb_true_iff, ?andb_true_iff, ?Z.ltb_lt;
    (split;
     [ intros Hov;
       repeat match goal with H : _ \/ _ |- _ => destruct H end;
       first [ pick_ranges (s1, e1) (s2, e2)
             | pick_ranges (s1, e1) (s2, 1440) | pick_ranges (s1, e1) (0, e2)
             | pick_ranges (s1, 1440) (s2, e2) | pick_ranges (0, e1) (s2, e2)
             | pick_ranges (s1, 1440) (s2, 1440)
             | pick_ranges (s1, 1440) (0, e2)
             | pick_ranges (0, e1) (s2, 1440) | pick_ranges (0, e1) (0, e2) ]
     | intros (a & b & Ha & Hb & Hlt);
       repeat match goal with
              | H : _ \/ _ |- _ => destruct H
              | H : False |- _ => destruct H
              end; subst; cbn [fst snd] in Hlt; lia ]).
Qed.

(** Two intervals of minutes in the day overlap exactly when some minute of
    the day lies in both. *)
Lemma periodsOverlap_common_minute (s1 e1 s2 e2 : Z) :
  0 <= s1 < 1440 -> 0 <= e1 < 1440 -> 0 <= s2 < 1440 -> 0 <= e2 < 1440 ->
  periodsOverlap (Int s1) (Int e1) (Int s2) (Int e2) = true <->
  exists t, 0 <= t < 1440 /\
    isTimeInPeriod (Int t) (Int s1) (Int e1) = true /\
    isTimeInPeriod (Int t) (Int s2) (Int e2) = true.
Proof.
  intros H1 H2 H3 H4.
  split.
  - intros H. exists (if Z_lt_dec s1 e1
                      then if Z_lt_dec s2 e2 then Z.max s1 s2
                           else if Z_lt_dec s1 e2 then s1 else Z.max s1 s2
                      else if Z_lt_dec s2 e2
                           then if Z_lt_dec s2 e1 then s2 else Z.max s1 s2
                           else Z.max s1 s2).
    revert H. unfold periodsOverlap, gt, lt. simpl.
    rewrite !isTimeInPeriod_Int.
    compare_all; simpl; intros; try discriminate; lia.
  - intros (t & Ht & Ha & Hb). revert Ha Hb.
    rewrite !isTimeInPeriod_Int.
    unfold periodsOverlap, gt, lt.
    compare_all; simpl; intros; try reflexivity; lia.
Qed.

(** C1. For minute values [s1 e1 s2 e2] in [[0, 1440)], [periodsOverlap]
    returns true exactly when some pair of sub-ranges of the two intervals, as
    the specification splits them, satisfies [a1 < b2 /\ b1 < a2]; and two
    back-to-back intervals, one ending at the minute the other starts, do not
    overlap. *)
Theorem periodsOverlap_sub_ranges (s1 e1 s2 e2 : Z) :
  0 <= s1 < 1440 -> 0 <= e1 < 1440 -> 0 <= s2 < 1440 -> 0 <= e2 < 1440 ->
  (periodsOverlap (Int s1) (Int e1) (Int s2) (Int e2) = true <->
   Spec.overlaps s1 e1 s2 e2) /\
  (Spec.backToBack s1 e1 s2 e2 ->
   periodsOverlap (Int s1) (Int e1) (Int s2) (Int e2) = false) /\
  (Spec.backToBack s2 e2 s1 e1 ->
   periodsOverlap (Int s1) (Int e1) (Int s2) (Int e2) = false).
Proof.
  intros H1 H2 H3 H4.
  split; [apply periodsOverlap_Int |].
  unfold Spec.backToBack, Spec.duration, periodsOverlap, gt, lt.
  split; intros [Htouch Hfit]; revert Hfit;
    compare_all; simpl; intros; try reflexivity; lia.
Qed.

Lemma periodsOverlap_sub_ranges_witness :
  periodsOverlap (Int 1320) (Int 420) (Int 420) (Int 540) = false /\
  (periodsOverlap (Int 1320) (Int 420) (Int 360) (Int 480) = true <->
   Spec.overlaps 1320 420 360 480).
Proof.
  split.
  - apply (proj1 (proj2 (periodsOverlap_sub_ranges 1320 420 420 540
             ltac:(lia) ltac:(lia) ltac:(lia) ltac:(lia)))).
    split; [reflexivity | vm_compute; discriminate].
  - apply (proj1 (periodsOverlap_sub_ranges 1320 420 360 480
             ltac:(lia) ltac:(lia) ltac:(lia) ltac:(lia))).
Defined.

(** C2. Point containment: for [s < e] the result is [t >= s && t < e]; for
    an interval that wraps past midnight it is [t >= s || t < e]; and for
    [s = e] it is true at every [t].  The function returns on every input. *)
Theorem isTimeInPeriod_contains (t s e : Z) :
  (s < e ->
   isTimeInPeriod (Int t) (Int s) (Int e) = (s <=? t) && (t <? e)) /\
  (e <= s ->
   isTimeInPeriod (Int t) (Int s) (Int e) = (s <=? t) || (t <? e)) /\
  (s = e -> isTimeInPeriod (Int t) (Int s) (Int e) = true).
Proof.
  unfold isTimeInPeriod, ge, lt.
  repeat split; intros; compare_all; simpl; try reflexivity; lia.
Qed.

Lemma isTimeInPeriod_contains_witness :
  isTimeInPeriod (Int 1410) (Int 1320) (Int 420) = true /\
  isTimeInPeriod (Int 480) (Int 1320) (Int 420) = false /\
  isTimeInPeriod (Int 840) (Int 780) (Int 900) = true /\
  isTimeInPeriod (Int 5) (Int 600) (Int 600) = true.
Proof.
  split; [| split; [| split]].
  - rewrite (proj1 (proj2 (isTimeInPeriod_contains 1410 1320 420)));
      [reflexivity | lia].
  - rewrite (proj1 (proj2 (isTimeInPeriod_contains 480 1320 420)));
      [reflexivity | lia].
  - rewrite (proj1 (isTimeInPeriod_contains 840 780 900));
      [reflexivity | lia].
  - apply (proj2 (proj2 (isTimeInPeriod_contains 5 600 600))). reflexivity.
Defined.

End Intervals.

(** ** The time format *)

Section TimeFormat.

Import QuietHoursService.

Lemma between_bounds (lo hi c : ascii) :
  between lo hi c = true <->
  (N_of_ascii lo <= N_of_ascii c /\ N_of_ascii c <= N_of_ascii hi)%N.
Proof.
  unfold between. rewrite andb_true_iff, !N.leb_le. tauto.
Qed.

Lemma isDigit_bounds (c : ascii) :
  isDigit c = true <-> (48 <= N_of_ascii c /\ N_of_ascii c <= 57)%N.
Proof.
  unfold isDigit. cbv zeta. rewrite andb_true_iff, !N.leb_le. tauto.
Qed.

Lemma digitChar_digitValue (c : ascii) :
  (48 <= N_of_ascii c)%N -> Spec.digitChar (digitValue c) = c.
Proof.
  intros Hc. unfold Spec.digitChar, digitValue.
  replace (48 + (Z.of_N (N_of_ascii c) - 48)) with (Z.of_N (N_of_ascii c))
    by lia.
  rewrite N2Z.id. apply ascii_N_embedding.
Qed.

Lemma pad2_digits (a b : Z) :
  0 <= b <= 9 ->
  Spec.pad2 (10 * a + b) =
  String (Spec.digitChar a) (String (Spec.digitChar b) EmptyString).
Proof.
  intros Hb. unfold Spec.pad2.
  replace ((10 * a + b) / 10) with a
    by (apply Z.div_unique with (r := b); lia).
  replace ((10 * a + b) mod 10) with b
    by (apply Z.mod_unique with (q := a); lia).
  reflexivity.
Qed.

(** A boolean test that holds on the first [n] naturals holds on every
    integer of [[0, n)]. *)
Lemma forallb_below (P : Z -> bool) (n : nat) :
  forallb P (List.map Z.of_nat (List.seq 0 n)) = true ->
  forall z, 0 <= z < Z.of_nat n -> P z = true.
Proof.
  rewrite forallb_forall. intros H z Hz. apply H.
  apply in_map_iff. exists (Z.to_nat z). split; [lia |].
  apply in_seq. lia.
Qed.

Lemma hoursTest_range (h : Z) : 0 <= h <= 23 -> hoursTest h = true.
Proof.
  intros Hh. apply (forallb_below hoursTest 24); [vm_compute; reflexivity |].
  lia.
Qed.

Lemma minutesTest_range (m : Z) : 0 <= m <= 59 -> minutesTest m = true.
Proof.
  intros Hm. apply (forallb_below minutesTest 60); [vm_compute; reflexivity |].
  lia.
Qed.

(** The regular expression accepts exactly the texts of the specified
    shape. *)
Lemma timeRegex_test_isHHmm (text : string) :
  timeRegex_test text = true <-> Spec.isHHmm text.
Proof.
  split.
  - destruct text as [| h1 [| h2 [| c [| m1 [| m2 [| x rest]]]]]];
      try discriminate.
    unfold timeRegex_test.
    rewrite !andb_true_iff, orb_true_iff, !andb_true_iff.
    rewrite !between_bounds, !isDigit_bounds, !Ascii.eqb_eq.
    change (N_of_ascii "0") with 48%N. change (N_of_ascii "1") with 49%N.
    change (N_of_ascii "3") with 51%N. change (N_of_ascii "5") with 53%N.
    intros [[Hh Hc] Hm]. subst c.
    exists (10 * digitValue h1 + digitValue h2),
           (10 * digitValue m1 + digitValue m2).
    assert (Hh1 : (48 <= N_of_ascii h1)%N /\ (48 <= N_of_ascii h2)%N /\
                  0 <= 10 * digitValue h1 + digitValue h2 <= 23 /\
                  0 <= digitValue h2 <= 9).
    { destruct Hh as [Hh | [-> Hh]]; unfold digitValue; simpl; lia. }
    destruct Hh1 as (Ha & Hb & Hrange & Hlow).
    split; [exact Hrange |].
    split; [unfold digitValue; lia |].
    rewrite !pad2_digits by (unfold digitValue; lia).
    rewrite !digitChar_digitValue by lia.
    reflexivity.
  - intros (h & m & Hh & Hm & ->).
    pose proof (hoursTest_range h Hh) as Hhours.
    pose proof (minutesTest_range m Hm) as Hminutes.
    unfold hoursTest, minutesTest in *. cbv zeta in *.
    unfold Spec.pad2. cbv [String.append timeRegex_test].
    rewrite Hhours. apply andb_true_iff in Hminutes as [-> ->].
    reflexivity.
Qed.

(** C5. Validation of a pair of time strings succeeds exactly when both
    have the zero-padded shape HH:mm (HH in 00-23, mm in 00-59) and they
    differ; a malformed string fails with the invalid-format error, two equal
    well-formed strings fail with the same-start-and-end error, and in both
    cases [createQuietHour] and [updateQuietHour] reject with that error and
    leave the table as it was. *)
Theorem validateTimeFormat_accepts (startTime endTime : string) :
  (validateTimeFormat startTime endTime = Ok tt <->
   Spec.isHHmm startTime /\ Spec.isHHmm endTime /\ startTime <> endTime) /\
  (~ Spec.isHHmm startTime \/ ~ Spec.isHHmm endTime ->
   validateTimeFormat startTime endTime = Throw invalidFormat) /\
  (Spec.isHHmm startTime -> Spec.isHHmm endTime -> startTime = endTime ->
   validateTimeFormat startTime endTime = Throw sameStartEnd) /\
  (forall (e : Error) (g : Generated) (uid i : string) (db : Table),
     validateTimeFormat startTime endTime = Throw e ->
     let input := {| in_startTime := startTime; in_endTime := endTime |} in
     createQuietHour g uid input db = (Throw e, db) /\
     updateQuietHour g uid i input db = (Throw e, db)).
Proof.
  rewrite <- !timeRegex_test_isHHmm.
  unfold createQuietHour, updateQuietHour, bind, lift. cbn [in_startTime in_endTime].
  unfold validateTimeFormat.
  destruct (timeRegex_test startTime), (timeRegex_test endTime);
    destruct (String.eqb_spec startTime endTime); cbn [negb orb];
    repeat split; try congruence; try tauto;
    try (intros; intuition congruence);
    try (intros ? ? ? ? ? [= <-]; reflexivity).
Qed.

Lemma validateTimeFormat_accepts_witness :
  validateTimeFormat "22:00" "07:00" = Ok tt /\
  validateTimeFormat "7:00" "08:00" = Throw invalidFormat /\
  validateTimeFormat "22:00" "22:00" = Throw sameStartEnd /\
  createQuietHour (mkGenerated "w1" (mkDate (Int 0))) "u"
    (mkQuietHourInput "22:00" "24:00") [] = (Throw invalidFormat, []).
Proof.
  assert (H2200 : Spec.isHHmm "22:00")
    by (exists 22, 0; split; [lia | split; [lia | reflexivity]]).
  assert (H0700 : Spec.isHHmm "07:00")
    by (exists 7, 0; split; [lia | split; [lia | reflexivity]]).
  split; [| split; [| split]].
  - apply (proj1 (validateTimeFormat_accepts "22:00" "07:00")).
    split; [exact H2200 | split; [exact H0700 | discriminate]].
  - apply (proj1 (proj2 (validateTimeFormat_accepts "7:00" "08:00"))).
    left. rewrite <- timeRegex_test_isHHmm. vm_compute. discriminate.
  - apply (proj1 (proj2 (proj2 (validateTimeFormat_accepts "22:00" "22:00"))));
      [exact H2200 | exact H2200 | reflexivity].
  - apply (proj2 (proj2 (proj2 (validateTimeFormat_accepts "22:00" "24:00")))
             invalidFormat (mkGenerated "w1" (mkDate (Int 0))) "u" "w1" []).
    vm_compute. reflexivity.
Defined.

End TimeFormat.

(** ** The stored windows of a user *)

Section StoredWindows.

Import QuietHoursService.

Lemma In_insertByStart (e x : QuietHoursEntity) (l : list QuietHoursEntity) :
  In x (QuietHoursRepository.insertByStart e l) <-> x = e \/ In x l.
Proof.
  induction l as [| y l IH]; simpl.
  - intuition congruence.
  - destruct (String.leb (startTime e) (startTime y)); simpl.
    + intuition congruence.
    + rewrite IH. intuition congruence.
Qed.

Lemma In_orderByStart (x : QuietHoursEntity) (l : list QuietHoursEntity) :
  In x (QuietHoursRepository.orderByStart l) <-> In x l.
Proof.
  induction l as [| y l IH]; simpl; [tauto |].
  rewrite In_insertByStart, IH. intuition congruence.
Qed.

(** The windows [findByUserId] returns are the rows of that user. *)
Lemma In_findByUserId (uid : string) (db : Table) (x : QuietHoursEntity) :
  In x (QuietHoursRepository.findByUserId uid db) <->
  In x db /\ userId x = uid.
Proof.
  unfold QuietHoursRepository.findByUserId.
  rewrite In_orderByStart, filter_In, String.eqb_eq. tauto.
Qed.

Lemma findByUserId_single (uid : string) (w : QuietHoursEntity) :
  userId w = uid -> QuietHoursRepository.findByUserId uid [w] = [w].
Proof.
  intros <-. unfold QuietHoursRepository.findByUserId. simpl.
  rewrite String.eqb_refl. reflexivity.
Qed.

Lemma isWithinQuietHours_existsb (uid : string) (date : Date) (db : Table) :
  isWithinQuietHours uid date db =
  existsb (contains (minuteOfDay date))
    (QuietHoursRepository.findByUserId uid db).
Proof.
  unfold isWithinQuietHours. fold (minuteOfDay date).
  generalize (QuietHoursRepository.findByUserId uid db). intros periods.
  match goal with
  | |- (if _ then false else ?loop _) = _ =>
      assert (Hloop : forall l, loop l = existsb (contains (minuteOfDay date)) l)
  end.
  { induction l as [| q l IH]; [reflexivity |].
    cbn [existsb]. unfold contains at 1.
    destruct (isTimeInPeriod _ _ _); [reflexivity | exact IH]. }
  rewrite Hloop. destruct periods; reflexivity.
Qed.

(** C3. [isWithinQuietHours] returns true exactly when some stored window of
    the user contains the minute of the day of the instant; with no stored
    window it returns false; and with the single window 22:00-07:00 it returns
    true at 23:30 and at 06:30 and false at 08:00. *)
Theorem isWithinQuietHours_some_window (uid : string) (date : Date)
  (db : Table) :
  (isWithinQuietHours uid date db = true <->
   exists period,
     In period (QuietHoursRepository.findByUserId uid db) /\
     contains (minuteOfDay date) period = true) /\
  (QuietHoursRepository.findByUserId uid db = [] ->
   isWithinQuietHours uid date db = false) /\
  (forall w,
     db = [w] -> userId w = uid ->
     startTime w = "22:00" -> endTime w = "07:00" ->
     (minuteOfDay date = Int (23 * 60 + 30) ->
      isWithinQuietHours uid date db = true) /\
     (minuteOfDay date = Int (6 * 60 + 30) ->
      isWithinQuietHours uid date db = true) /\
     (minuteOfDay date = Int (8 * 60) ->
      isWithinQuietHours uid date db = false)).
Proof.
  rewrite isWithinQuietHours_existsb. split; [| split].
  - rewrite existsb_exists. tauto.
  - intros ->. reflexivity.
  - intros w -> Hu Hs He.
    rewrite (findByUserId_single uid w Hu). cbn [existsb].
    unfold contains. rewrite Hs, He.
    split; [| split]; intros ->; vm_compute; reflexivity.
Qed.

Lemma isWithinQuietHours_some_window_witness :
  isWithinQuietHours "u1" (mkDate (Int 1704151815123)) [overnight] = true /\
  isWithinQuietHours "u1" (mkDate (Int 1704177000000)) [overnight] = true /\
  isWithinQuietHours "u1" (mkDate (Int 1704182400000)) [overnight] = false /\
  isWithinQuietHours "u2" (mkDate (Int 1704151815123)) [overnight] = false.
Proof.
  split; [| split; [| split]].
  - apply (proj1 (proj2 (proj2 (isWithinQuietHours_some_window "u1"
             (mkDate (Int 1704151815123)) [overnight])) overnight
             eq_refl eq_refl eq_refl eq_refl)).
    reflexivity.
  - apply (proj1 (proj2 (proj2 (proj2 (isWithinQuietHours_some_window "u1"
             (mkDate (Int 1704177000000)) [overnight])) overnight
             eq_refl eq_refl eq_refl eq_refl))).
    reflexivity.
  - apply (proj2 (proj2 (proj2 (proj2 (isWithinQuietHours_some_window "u1"
             (mkDate (Int 1704182400000)) [overnight])) overnight
             eq_refl eq_refl eq_refl eq_refl))).
    reflexivity.
  - apply (proj1 (proj2 (isWithinQuietHours_some_window "u2"
             (mkDate (Int 1704151815123)) [overnight]))).
    reflexivity.
Defined.

(** C10. Two instants with the same UTC hour and the same UTC minute get the
    same answer from [isWithinQuietHours], whatever their seconds,
    milliseconds and calendar dates are. *)
Theorem isWithinQuietHours_minute_only (uid : string) (d1 d2 : Date)
  (db : Table) :
  getUTCHours d1 = getUTCHours d2 ->
  getUTCMinutes d1 = getUTCMinutes d2 ->
  isWithinQuietHours uid d1 db = isWithinQuietHours uid d2 db.
Proof.
  intros Hh Hm. rewrite !isWithinQuietHours_existsb.
  unfold minuteOfDay. rewrite Hh, Hm. reflexivity.
Qed.

Lemma isWithinQuietHours_minute_only_witness :
  isWithinQuietHours "u1" (mkDate (Int 1704151815123)) [overnight] =
  isWithinQuietHours "u1" (mkDate (Int 1720049459999)) [overnight].
Proof.
  apply (isWithinQuietHours_minute_only "u1" (mkDate (Int 1704151815123))
           (mkDate (Int 1720049459999)) [overnight]);
    vm_compute; reflexivity.
Defined.

End StoredWindows.

(** ** The overlap check on insert and update *)

Section OverlapCheck.

Import QuietHoursService.

Lemma hasOverlap_existsb (input : QuietHourInput)
  (existing : list QuietHoursEntity) (editingId : option string) :
  hasOverlap input existing editingId =
  existsb (fun period => negb (isEdited editingId period)
                         && conflicts input period) existing.
Proof.
  unfold hasOverlap. cbv zeta.
  induction existing as [| period rest IH]; [reflexivity |].
  cbn [existsb]. unfold conflicts at 1.
  destruct (isEdited editingId period); cbn [negb andb orb]; [exact IH |].
  destruct (periodsOverlap _ _ _ _); [reflexivity | exact IH].
Qed.

Lemma isEdited_Some (i : string) (period : QuietHoursEntity) :
  i <> "" -> (isEdited (Some i) period = false <-> id period <> i).
Proof.
  intros Hi. unfold isEdited.
  destruct (String.eqb_spec i ""); [contradiction |].
  destruct (String.eqb_spec (id period) i); cbn [negb andb];
    intuition congruence.
Qed.

Lemma existsb_id (i : string) (l : list QuietHoursEntity) :
  existsb (fun qh => String.eqb (id qh) i) l = true <->
  exists qh, In qh l /\ id qh = i.
Proof.
  rewrite existsb_exists. setoid_rewrite String.eqb_eq. tauto.
Qed.

(** A stored window of the user is found again by its key. *)
Lemma find_owns (uid i : string) (db : Table) :
  (exists qh, In qh (QuietHoursRepository.findByUserId uid db) /\ id qh = i) ->
  exists entity, List.find (QuietHoursRepository.owns uid i) db = Some entity.
Proof.
  intros (qh & Hin & Hid). apply In_findByUserId in Hin as [Hin Hu].
  destruct (List.find (QuietHoursRepository.owns uid i) db) eqn:E; [eauto |].
  exfalso. apply (find_none _ _ E) in Hin.
  unfold QuietHoursRepository.owns in Hin.
  rewrite Hid, Hu, !String.eqb_refl in Hin. discriminate.
Qed.

(** C4 (as the code has it). [hasOverlap] is true exactly when the candidate
    overlaps a stored window that is not the one under edit.  The overlap
    check of [createQuietHour] and [updateQuietHour] rejects a well-formed candidate with the
    [ValidationError] "Quiet hour periods cannot overlap.", which names no
    window, exactly when the candidate overlaps a stored window of the user
    other than the one whose id is the id under update; the table is left as
    it was.  With the stored window 22:00-07:00 the candidate 06:00-08:00 is
    rejected. *)
Theorem hasOverlap_rejects (g : Generated) (uid : string)
  (input : QuietHourInput) (db : Table) :
  let existing := QuietHoursRepository.findByUserId uid db in
  let wellFormed :=
    validateTimeFormat (in_startTime input) (in_endTime input) = Ok tt in
  (forall editingId,
     hasOverlap input existing editingId = true <->
     exists period,
       In period existing /\ isEdited editingId period = false /\
       conflicts input period = true) /\
  (wellFormed ->
   (createQuietHour g uid input db = (Throw overlapError, db) <->
    exists period, In period existing /\ conflicts input period = true)) /\
  (wellFormed ->
   forall i,
     i <> "" -> (exists qh, In qh existing /\ id qh = i) ->
     (updateQuietHour g uid i input db = (Throw overlapError, db) <->
      exists period,
        In period existing /\ id period <> i /\
        conflicts input period = true)) /\
  (forall w,
     db = [w] -> userId w = uid ->
     startTime w = "22:00" -> endTime w = "07:00" ->
     in_startTime input = "06:00" -> in_endTime input = "08:00" ->
     createQuietHour g uid input db = (Throw overlapError, db)).
Proof.
  intros existing wellFormed.
  assert (Hcheck : forall editingId,
    hasOverlap input existing editingId = true <->
    exists period,
      In period existing /\ isEdited editingId period = false /\
      conflicts input period = true).
  { intros editingId. rewrite hasOverlap_existsb, existsb_exists.
    setoid_rewrite andb_true_iff. setoid_rewrite negb_true_iff. tauto. }
  assert (Hcreate : wellFormed ->
    (createQuietHour g uid input db = (Throw overlapError, db) <->
     exists period, In period existing /\ conflicts input period = true)).
  { intros Hvalid.
    unfold createQuietHour, bind, lift, findByUserId, throw.
    rewrite Hvalid. fold existing.
    destruct (hasOverlap input existing None) eqn:E.
    - apply Hcheck in E as (period & Hin & _ & Hc).
      split; [eauto | reflexivity].
    - split; [discriminate |].
      intros (period & Hin & Hc).
      assert (hasOverlap input existing None = true) as E'
        by (apply Hcheck; exists period; repeat split; assumption).
      congruence. }
  split; [exact Hcheck | split; [exact Hcreate | split]].
  - intros Hvalid i Hi Hknown.
    unfold updateQuietHour, bind, lift, findByUserId, throw.
    rewrite Hvalid. fold existing.
    rewrite (proj2 (existsb_id i existing) Hknown). cbn [negb].
    destruct (hasOverlap input existing (Some i)) eqn:E.
    + apply Hcheck in E as (period & Hin & Hne & Hc).
      apply (isEdited_Some i period Hi) in Hne.
      split; [eauto | reflexivity].
    + split.
      * destruct (find_owns uid i db Hknown) as [entity Hfind].
        unfold QuietHoursRepository.update. rewrite Hfind. discriminate.
      * intros (period & Hin & Hne & Hc).
        assert (hasOverlap input existing (Some i) = true) as E'.
        { apply Hcheck. exists period. split; [exact Hin |].
          split; [apply (isEdited_Some i period Hi); exact Hne | exact Hc]. }
        congruence.
  - intros w -> Hu Hs He His Hie. apply Hcreate.
    + unfold wellFormed. rewrite His, Hie. reflexivity.
    + exists w. subst existing. rewrite (findByUserId_single uid w Hu).
      split; [left; reflexivity |].
      unfold conflicts. rewrite Hs, He, His, Hie. vm_compute. reflexivity.
Qed.

Lemma hasOverlap_rejects_witness :
  createQuietHour (mkGenerated "w2" (mkDate (Int 1704182400000))) "u1"
    (mkQuietHourInput "06:00" "08:00") [overnight]
  = (Throw overlapError, [overnight]) /\
  (updateQuietHour (mkGenerated "w2" (mkDate (Int 1704182400000))) "u1" "w1"
     (mkQuietHourInput "06:00" "08:00") [overnight]
   = (Throw overlapError, [overnight]) <->
   exists period,
     In period [overnight] /\ id period <> "w1" /\
     conflicts (mkQuietHourInput "06:00" "08:00") period = true).
Proof.
  split.
  - apply (proj2 (proj2 (proj2 (hasOverlap_rejects
             (mkGenerated "w2" (mkDate (Int 1704182400000))) "u1"
             (mkQuietHourInput "06:00" "08:00") [overnight])))
             overnight);
      reflexivity.
  - apply (proj1 (proj2 (proj2 (hasOverlap_rejects
             (mkGenerated "w2" (mkDate (Int 1704182400000))) "u1"
             (mkQuietHourInput "06:00" "08:00") [overnight]))) eq_refl "w1").
    + discriminate.
    + exists overnight. split; [left; reflexivity | reflexivity].
Defined.

(** C4 (as the specification states it) fails: no reading of the failure
    yields the id of a conflicting window, because the same error object
    answers conflicts with different windows. *)
Lemma overlap_failure_names_no_window :
  ~ exists conflictId : Error -> string,
      forall (g : Generated) (uid : string) (input : QuietHourInput)
             (db : Table) (e : Error),
        createQuietHour g uid input db = (Throw e, db) ->
        e <> invalidFormat -> e <> sameStartEnd ->
        exists period,
          In period (QuietHoursRepository.findByUserId uid db) /\
          conflicts input period = true /\
          id period = conflictId e.
Proof.
  intros (conflictId & H).
  pose (g := mkGenerated "w9" (mkDate (Int 1704182400000))).
  pose (candidate := mkQuietHourInput "06:00" "08:00").
  pose (other := {| id := "w2"; userId := "u1"; startTime := "22:00";
                    endTime := "07:00";
                    createdAt := mkDate (Int 1700000000000);
                    updatedAt := mkDate (Int 1700000000000) |}).
  destruct (H g "u1" candidate [overnight] overlapError)
    as (p1 & Hin1 & _ & Hid1);
    [reflexivity | discriminate | discriminate |].
  destruct (H g "u1" candidate [other] overlapError)
    as (p2 & Hin2 & _ & Hid2);
    [reflexivity | discriminate | discriminate |].
  destruct Hin1 as [<- | []]. destruct Hin2 as [<- | []].
  rewrite <- Hid1 in Hid2. discriminate.
Qed.

End OverlapCheck.

(** ** Submitting and sweeping notifications *)

Section Sweep.

Import NotificationService.

Variable provider : list Attempt -> NotificationPayload -> Result unit.

Lemma isExpired_true (now : Date) (x : QueuedNotification) :
  isExpired now x = true <->
  exists (d : Date) (a b : Z),
    relevanceExpiresAt (payload x) = Some d /\
    getTime d = Int a /\ getTime now = Int b /\ a < b.
Proof.
  unfold isExpired, gt, lt.
  destruct (relevanceExpiresAt (payload x)) as [d |].
  - destruct (getTime now) as [b |] eqn:Hnow, (getTime d) as [a |] eqn:Hd.
    + rewrite Z.ltb_lt. split.
      * intros Hlt. exists d, a, b. tauto.
      * intros (d' & a' & b' & [= <-] & Ha & Hb & Hlt). congruence.
    + split; [discriminate |].
      intros (d' & a' & b' & [= <-] & Ha & _). congruence.
    + split; [discriminate |].
      intros (d' & a' & b' & _ & _ & Hb & _). congruence.
    + split; [discriminate |].
      intros (d' & a' & b' & _ & _ & Hb & _). congruence.
  - split; [discriminate | intros (d & a & b & Hd & _); discriminate].
Qed.

(** Every item that is not expired is tried once, in queue order. *)
Lemma attemptsOf_items (now : Date) (queue : list QueuedNotification) :
  forall tr, List.map fst (attemptsOf provider now tr queue) = fresh now queue.
Proof.
  induction queue as [| x rest IH]; intros tr; [reflexivity |].
  unfold fresh in *. cbn [attemptsOf List.filter].
  destruct (isExpired now x); cbn [negb]; [apply IH |].
  cbn [List.map fst]. rewrite IH. reflexivity.
Qed.

(** Every outcome is the provider's answer after the calls before it. *)
Lemma attemptsOf_outcomes (now : Date) (queue : list QueuedNotification) :
  forall tr before a after,
    attemptsOf provider now tr queue = before ++ a :: after ->
    snd a = provider (tr ++ recorded before) (payload (fst a)).
Proof.
  induction queue as [| x rest IH]; intros tr before a after.
  - destruct before; discriminate.
  - cbn [attemptsOf]. destruct (isExpired now x); [apply IH |].
    destruct before as [| b before]; cbn [app]; intros [= Hb Hrest].
    + subst a. cbn [recorded List.map fst snd]. rewrite app_nil_r. reflexivity.
    + subst b. apply IH in Hrest. rewrite Hrest.
      cbn [recorded List.map fst snd]. rewrite <- app_assoc. reflexivity.
Qed.

Lemma attemptsOf_fresh (now : Date) (queue : list QueuedNotification) :
  forall tr a,
    In a (attemptsOf provider now tr queue) ->
    In (fst a) queue /\ isExpired now (fst a) = false.
Proof.
  intros tr a Ha.
  assert (In (fst a) (fresh now queue)) as Hf
    by (rewrite <- (attemptsOf_items now queue tr); apply in_map; exact Ha).
  apply filter_In in Hf as [Hin Hf]. apply negb_true_iff in Hf. tauto.
Qed.

(** What a sweep keeps and what it calls the provider for was not expired. *)
Lemma swept_items_fresh (now : Date) (uid : string) (w : World) :
  let attempts := attemptsOf provider now (pushes w) (getQueuedNotifications uid w) in
  (forall x, In x (failedOf attempts) -> isExpired now x = false) /\
  (forall p outcome,
     In (p, outcome) (recorded attempts) ->
     exists y, payload y = p /\ isExpired now y = false).
Proof.
  intros attempts. split.
  - intros x Hx. unfold failedOf in Hx.
    apply in_map_iff in Hx as (a & <- & Ha).
    apply filter_In in Ha as [Ha _].
    apply (attemptsOf_fresh now _ _ _ Ha).
  - intros p outcome Hp. unfold recorded in Hp.
    apply in_map_iff in Hp as (a & [= <- <-] & Ha).
    exists (fst a). split; [reflexivity |].
    apply (attemptsOf_fresh now _ _ _ Ha).
Qed.

Lemma deliverEach_run (now : Date) (queue : list QueuedNotification) :
  forall (n : Z) (remaining : list QueuedNotification) (w : World),
    deliverEach provider now queue n remaining w =
    (Ok (n + deliveredOf (attemptsOf provider now (pushes w) queue),
         remaining ++ failedOf (attemptsOf provider now (pushes w) queue)),
     {| table := table w;
        notificationQueue := notificationQueue w;
        pushes := pushes w ++ recorded (attemptsOf provider now (pushes w) queue) |}).
Proof.
  induction queue as [| x rest IH]; intros n remaining w.
  - cbn. unfold deliveredOf, failedOf, recorded. cbn.
    rewrite Z.add_0_r, !app_nil_r. destruct w; reflexivity.
  - cbn [deliverEach attemptsOf]. destruct (isExpired now x); [apply IH |].
    unfold tryCatch, bind, ret, deliverNotification.
    destruct (provider (pushes w) (payload x)) as [[] | e] eqn:E;
      rewrite IH; cbn [table notificationQueue pushes];
      unfold deliveredOf, failedOf, recorded;
      cbn [List.filter List.map fst snd resolved negb length];
      rewrite <- !app_assoc; cbn [app];
      first [ reflexivity
            | rewrite Nat2Z.inj_succ, <- Z.add_1_l, Z.add_assoc; reflexivity ].
Qed.

Lemma deliverQueuedNotifications_run (now : Date) (uid : string) (w : World) :
  let attempts := attemptsOf provider now (pushes w) (getQueuedNotifications uid w) in
  deliverQueuedNotifications provider now uid w =
  (Ok (deliveredOf attempts),
   {| table := table w;
      notificationQueue :=
        if Nat.ltb 0 (length (failedOf attempts))
        then <[uid := failedOf attempts]> (notificationQueue w)
        else delete uid (notificationQueue w);
      pushes := pushes w ++ recorded attempts |}).
Proof.
  intros attempts. unfold deliverQueuedNotifications, bind.
  fold (getQueuedNotifications uid w). rewrite deliverEach_run.
  fold attempts. reflexivity.
Qed.

(** Reading back the entry that [storeRemaining] wrote. *)
Lemma lookup_stored (uid : string) (l : list QueuedNotification)
  (m : gmap string (list QueuedNotification)) :
  default [] ((if Nat.ltb 0 (length l) then <[uid := l]> m
               else delete uid m) !! uid) = l.
Proof.
  destruct l as [| x l]; cbn [length Nat.ltb Nat.leb].
  - rewrite lookup_delete_eq. reflexivity.
  - rewrite lookup_insert_eq. reflexivity.
Qed.

Lemma sublist_filter_bool {A : Type} (f : A -> bool) (l : list A) :
  sublist (List.filter f l) l.
Proof.
  induction l as [| x l IH]; cbn [List.filter]; [constructor |].
  destruct (f x); [apply sublist_skip | apply sublist_cons]; exact IH.
Qed.

Lemma sublist_map {A B : Type} (f : A -> B) (l1 l2 : list A) :
  sublist l1 l2 -> sublist (List.map f l1) (List.map f l2).
Proof.
  induction 1; cbn [List.map]; constructor; assumption.
Qed.

Lemma failedOf_sublist (now : Date) (tr : list Attempt)
  (queue : list QueuedNotification) :
  sublist (failedOf (attemptsOf provider now tr queue)) queue.
Proof.
  transitivity (fresh now queue); [| apply sublist_filter_bool].
  rewrite <- (attemptsOf_items now queue tr).
  apply sublist_map, sublist_filter_bool.
Qed.

Lemma attemptsOf_counts (now : Date) (tr : list Attempt)
  (queue : list QueuedNotification) :
  deliveredOf (attemptsOf provider now tr queue)
  + Z.of_nat (length (failedOf (attemptsOf provider now tr queue)))
  = Z.of_nat (length (fresh now queue)).
Proof.
  rewrite <- (attemptsOf_items now queue tr).
  unfold deliveredOf, failedOf. rewrite !length_map.
  generalize (attemptsOf provider now tr queue) as l.
  induction l as [| a l IH]; [reflexivity |].
  cbn [List.filter length]. destruct (resolved (snd a)); cbn [negb length]; lia.
Qed.

(** C6. [sendNotification] in quiet hours appends exactly one item, stamped
    with the current date, to the queue of the payload's user, resolves to
    false and does not call the provider; outside quiet hours it calls the
    provider once with the payload, leaves every queue as it was, and
    resolves to true when that call resolves (its rejection is passed on). *)
Theorem sendNotification_decides (now : Date) (p : NotificationPayload)
  (w : World) :
  let quiet :=
    QuietHoursService.isWithinQuietHours (n_userId p) (timestamp p) (table w) in
  let item := {| payload := p; queuedAt := now |} in
  (quiet = true ->
   exists w',
     sendNotification provider now p w = (Ok false, w') /\
     getQueuedNotifications (n_userId p) w' =
       getQueuedNotifications (n_userId p) w ++ [item] /\
     (forall u, u <> n_userId p ->
        notificationQueue w' !! u = notificationQueue w !! u) /\
     pushes w' = pushes w /\ table w' = table w) /\
  (quiet = false ->
   exists w',
     sendNotification provider now p w =
       (match provider (pushes w) p with
        | Ok _ => Ok true
        | Throw e => Throw e
        end, w') /\
     pushes w' = pushes w ++ [(p, provider (pushes w) p)] /\
     notificationQueue w' = notificationQueue w /\ table w' = table w).
Proof.
  intros quiet item.
  unfold sendNotification, tryCatch, bind, isWithinQuietHours.
  fold quiet. split; intros ->.
  - eexists. split; [reflexivity |].
    unfold getQueuedNotifications. cbn [notificationQueue pushes table].
    split; [rewrite lookup_insert_eq; reflexivity |].
    split; [| split; reflexivity].
    intros u Hu. rewrite lookup_insert_ne by congruence. reflexivity.
  - unfold deliverNotification, ret, throw.
    destruct (provider (pushes w) p) as [[] | e]; eexists;
      (split; [reflexivity |]); cbn [notificationQueue pushes table];
      repeat split; reflexivity.
Qed.

(** C8. After a sweep the user's queue holds exactly the unexpired items
    whose provider call rejected, in their queue order: the sweep resolves
    although calls rejected, every unexpired item was tried once, a rejection
    did not stop the loop; the user's entry is removed from the map when
    nothing remains; other users' queues are as before. *)
Theorem sweep_retains_failed (now : Date) (uid : string) (w : World) :
  let queue := getQueuedNotifications uid w in
  let attempts := attemptsOf provider now (pushes w) queue in
  let w' := snd (deliverQueuedNotifications provider now uid w) in
  fst (deliverQueuedNotifications provider now uid w)
    = Ok (deliveredOf attempts) /\
  List.map fst attempts = fresh now queue /\
  (forall before a after,
     attempts = before ++ a :: after ->
     snd a = provider (pushes w ++ recorded before) (payload (fst a))) /\
  pushes w' = pushes w ++ recorded attempts /\
  getQueuedNotifications uid w' = failedOf attempts /\
  sublist (failedOf attempts) queue /\
  (failedOf attempts = [] -> notificationQueue w' !! uid = None) /\
  (failedOf attempts <> [] ->
   notificationQueue w' !! uid = Some (failedOf attempts)) /\
  (forall u, u <> uid ->
     notificationQueue w' !! u = notificationQueue w !! u).
Proof.
  intros queue attempts w'. subst w'.
  rewrite deliverQueuedNotifications_run. fold queue. fold attempts.
  cbn [fst snd pushes notificationQueue]. unfold getQueuedNotifications.
  cbn [notificationQueue].
  split; [reflexivity |].
  split; [apply attemptsOf_items |].
  split; [apply attemptsOf_outcomes |].
  split; [reflexivity |].
  split; [apply lookup_stored | split; [apply failedOf_sublist |]].
  split; [| split].
  - intros ->. cbn [length Nat.ltb Nat.leb]. apply lookup_delete_eq.
  - destruct (failedOf attempts) as [| x l]; [congruence |].
    intros _. cbn [length Nat.ltb Nat.leb]. apply lookup_insert_eq.
  - intros u Hu.
    destruct (Nat.ltb 0 (length (failedOf attempts)));
      [rewrite lookup_insert_ne | rewrite lookup_delete_ne]; congruence.
Qed.

(** C7 (as the code has it). In a sweep, an item whose [relevanceExpiresAt]
    is set and strictly earlier than the current date is dropped before any
    provider call: the sweep makes no call for it and it is not in the queue
    afterwards, whatever the quiet-hours state of the user is. *)
Theorem sweep_drops_expired (now : Date) (uid : string) (w : World)
  (x : QueuedNotification) (d : Date) (a b : Z) :
  In x (getQueuedNotifications uid w) ->
  relevanceExpiresAt (payload x) = Some d ->
  getTime d = Int a -> getTime now = Int b -> a < b ->
  let w' := snd (deliverQueuedNotifications provider now uid w) in
  ~ In x (getQueuedNotifications uid w') /\
  exists calls,
    pushes w' = pushes w ++ calls /\
    forall outcome, ~ In (payload x, outcome) calls.
Proof.
  intros Hin Hd Ha Hb Hlt w'.
  assert (Hexp : forall y, payload y = payload x -> isExpired now y = true).
  { intros y Hy. apply isExpired_true. exists d, a, b. rewrite Hy. tauto. }
  pose proof (swept_items_fresh now uid w) as Hitems.
  subst w'. rewrite deliverQueuedNotifications_run.
  cbn [snd pushes]. split.
  - destruct Hitems as [Hkept _]. unfold getQueuedNotifications in *.
    cbn [notificationQueue] in *. rewrite lookup_stored. intros Hf.
    apply Hkept in Hf. rewrite (Hexp x eq_refl) in Hf. discriminate.
  - eexists. split; [reflexivity |].
    intros outcome Hcall. destruct Hitems as [_ Hcalls].
    apply Hcalls in Hcall as (y & Hy & Hfresh).
    rewrite (Hexp y Hy) in Hfresh. discriminate.
Qed.

(** C9 (as the code has it). A sweep always resolves, also when provider
    calls reject, and its result is one number: the count of provider calls
    of this sweep that resolved.  The rejected calls are the items left in
    the queue, and the items of the queue are the expired ones and the ones
    called for; neither of these two counts is part of the result. *)
Theorem sweep_returns_delivered (now : Date) (uid : string) (w : World) :
  let queue := getQueuedNotifications uid w in
  exists (w' : World) (calls : list Attempt),
    deliverQueuedNotifications provider now uid w =
      (Ok (Z.of_nat (length (List.filter (fun c => resolved (snd c)) calls))),
       w') /\
    pushes w' = pushes w ++ calls /\
    length (getQueuedNotifications uid w') =
      length (List.filter (fun c => negb (resolved (snd c))) calls) /\
    length queue =
      (length (List.filter (isExpired now) queue) + length calls)%nat.
Proof.
  intros queue. subst queue.
  rewrite deliverQueuedNotifications_run.
  set (queue := getQueuedNotifications uid w).
  set (attempts := attemptsOf provider now (pushes w) queue).
  assert (Hcount :
    deliveredOf attempts =
    Z.of_nat (length (List.filter (fun c => resolved (snd c))
                        (recorded attempts)))).
  { unfold deliveredOf, recorded. f_equal.
    clear. induction attempts as [| a l IH]; [reflexivity |].
    cbn [List.map List.filter snd]. destruct (resolved (snd a));
      cbn [length]; congruence. }
  rewrite Hcount. eexists. exists (recorded attempts).
  split; [reflexivity |]. cbn [pushes].
  split; [reflexivity | split].
  - unfold getQueuedNotifications at 1. cbn [notificationQueue].
    rewrite lookup_stored. unfold failedOf, recorded. rewrite length_map.
    clear. induction attempts as [| a l IH]; [reflexivity |].
    cbn [List.map List.filter snd]. destruct (resolved (snd a));
      cbn [negb length]; congruence.
  - unfold recorded. rewrite length_map, <- (length_map fst).
    unfold attempts. rewrite attemptsOf_items.
    unfold fresh. clear. induction queue as [| x l IH]; [reflexivity |].
    cbn [List.filter]. destruct (isExpired now x); cbn [negb length]; lia.
Qed.

End Sweep.

(** ** Runs of the notification service *)

Section Runs.

Import NotificationService.

Lemma sendNotification_decides_witness :
  (exists w',
     sendNotification simulated (mkDate (Int 1704151816000)) hello idle
       = (Ok false, w') /\
     getQueuedNotifications "u1" w' = [held hello] /\
     pushes w' = []) /\
  (exists w',
     sendNotification simulated morning (note "hello" 1704182400000 None) idle
       = (Ok true, w') /\
     pushes w' = [(note "hello" 1704182400000 None, Ok tt)] /\
     notificationQueue w' = ∅).
Proof.
  split.
  - destruct (proj1 (sendNotification_decides simulated
                       (mkDate (Int 1704151816000)) hello idle) eq_refl)
      as (w' & Hrun & Hqueue & _ & Hpushes & _).
    exists w'. split; [exact Hrun | split; [exact Hqueue | exact Hpushes]].
  - destruct (proj2 (sendNotification_decides simulated morning
                       (note "hello" 1704182400000 None) idle) eq_refl)
      as (w' & Hrun & Hpushes & Hqueue & _).
    exists w'. split; [exact Hrun | split; [exact Hpushes | exact Hqueue]].
Defined.

Lemma sweep_retains_failed_witness :
  let w' := snd (deliverQueuedNotifications unreliable morning "u1" night) in
  getQueuedNotifications "u1" w' = [held down] /\
  notificationQueue w' !! "u1" = Some [held down] /\
  notificationQueue
    (snd (deliverQueuedNotifications simulated morning "u1" night)) !! "u1"
  = None.
Proof.
  split; [| split].
  - apply (proj1 (proj2 (proj2 (proj2 (proj2
             (sweep_retains_failed unreliable morning "u1" night)))))).
  - apply (proj1 (proj2 (proj2 (proj2 (proj2 (proj2 (proj2 (proj2
             (sweep_retains_failed unreliable morning "u1" night))))))))).
    discriminate.
  - apply (proj1 (proj2 (proj2 (proj2 (proj2 (proj2 (proj2
             (sweep_retains_failed simulated morning "u1" night)))))))).
    reflexivity.
Defined.

Lemma sweep_drops_expired_witness :
  let w' := snd (deliverQueuedNotifications simulated morning "u1" night) in
  ~ In (held stale) (getQueuedNotifications "u1" w') /\
  exists calls,
    pushes w' = pushes night ++ calls /\
    forall outcome, ~ In (stale, outcome) calls.
Proof.
  apply (sweep_drops_expired simulated morning "u1" night (held stale)
           (mkDate (Int 1704153600000)) 1704153600000 1704182400000).
  - left. reflexivity.
  - reflexivity.
  - reflexivity.
  - reflexivity.
  - lia.
Defined.

(** C7 (as the specification states it) fails: a sweep over a queue holding
    one expired item and a sweep over an empty queue end with the same result
    and the same world, so nothing a sweep produces counts the expired
    items. *)
Lemma expired_items_are_not_counted :
  ~ exists expiredCount : Result Z * World -> Z,
      forall (now : Date) (uid : string) (w : World),
        expiredCount (deliverQueuedNotifications simulated now uid w) =
        Z.of_nat (length (List.filter (isExpired now)
                            (getQueuedNotifications uid w))).
Proof.
  intros (expiredCount & H).
  pose proof (H morning "u1" onlyStale) as H1.
  pose proof (H morning "u1" idle) as H0.
  assert (Hsame : deliverQueuedNotifications simulated morning "u1" onlyStale
                  = deliverQueuedNotifications simulated morning "u1" idle).
  { rewrite !deliverQueuedNotifications_run. unfold onlyStale, idle.
    unfold getQueuedNotifications. cbn [notificationQueue pushes table].
    rewrite lookup_singleton_eq, lookup_empty. cbn.
    rewrite delete_singleton_eq, delete_empty. reflexivity. }
  rewrite Hsame, H0 in H1. vm_compute in H1. discriminate.
Qed.

(** C9 (as the specification states it) fails: the number a sweep resolves
    to does not determine how many items expired or remain. *)
Lemma sweep_result_is_one_count :
  ~ exists sweepResult : Z -> Z * Z * Z,
      forall (now : Date) (uid : string) (w w' : World) (n : Z),
        deliverQueuedNotifications simulated now uid w = (Ok n, w') ->
        sweepResult n =
        (n,
         Z.of_nat (length (List.filter (isExpired now)
                             (getQueuedNotifications uid w))),
         Z.of_nat (length (getQueuedNotifications uid w'))).
Proof.
  intros (sweepResult & H).
  pose proof (H morning "u1" onlyStale _ 0
                (deliverQueuedNotifications_run simulated morning "u1"
                   onlyStale)) as H1.
  pose proof (H morning "u1" idle _ 0
                (deliverQueuedNotifications_run simulated morning "u1" idle))
    as H0.
  rewrite H0 in H1. vm_compute in H1. discriminate.
Qed.

End Runs.

(** ** Scenarios *)

Section Scenarios.

Import QuietHoursService NotificationService.

Example timeToMinutes_2200 : timeToMinutes "22:00" = Int 1320.
Proof. reflexivity. Qed.

Example timeToMinutes_no_colon : timeToMinutes "2200" = NaN.
Proof. reflexivity. Qed.

(** A daytime window 13:00-15:00 holds 14:00 and not 16:00. *)
Example daytime_window :
  isTimeInPeriod (Int 840) (timeToMinutes "13:00") (timeToMinutes "15:00")
    = true /\
  isTimeInPeriod (Int 960) (timeToMinutes "13:00") (timeToMinutes "15:00")
    = false.
Proof. split; reflexivity. Qed.

(** A window that ends where the stored one starts is accepted. *)
Example adjacent_window_accepted :
  fst (createQuietHour (mkGenerated "w2" morning) "u1"
         (mkQuietHourInput "07:00" "09:00") [overnight])
  = Ok {| id := "w2"; userId := "u1"; startTime := "07:00";
          endTime := "09:00"; createdAt := morning; updatedAt := morning |}.
Proof. reflexivity. Qed.

(** Moving the stored window onto itself is not a conflict. *)
Example update_in_place :
  fst (updateQuietHour (mkGenerated "w2" morning) "u1" "w1"
         (mkQuietHourInput "21:00" "06:00") [overnight])
  = Ok {| id := "w1"; userId := "u1"; startTime := "21:00";
          endTime := "06:00"; createdAt := createdAt overnight;
          updatedAt := morning |}.
Proof. reflexivity. Qed.

(** The queue drains when quiet hours end: a notification sent at 23:30 is
    queued, and the sweep at 08:00 delivers it and removes the entry. *)
Example queue_drains :
  let queuedAt := mkDate (Int 1704151816000) in
  let sent := sendNotification simulated queuedAt hello idle in
  let swept := deliverQueuedNotifications simulated morning "u1" (snd sent) in
  fst sent = Ok false /\
  getQueuedNotifications "u1" (snd sent) = [held hello] /\
  fst swept = Ok 1 /\
  notificationQueue (snd swept) !! "u1" = None /\
  pushes (snd swept) = [(hello, Ok tt)].
Proof. vm_compute. repeat split; reflexivity. Qed.

(** One sweep over an expired item, an item the provider rejects and an item
    it accepts. *)
Example sweep_night :
  let swept := deliverQueuedNotifications unreliable morning "u1" night in
  fst swept = Ok 1 /\
  getQueuedNotifications "u1" (snd swept) = [held down] /\
  List.map fst (pushes (snd swept)) = [down; hello].
Proof. vm_compute. repeat split; reflexivity. Qed.

End Scenarios.

(** ** More on intervals and times of day *)

Section DayArithmetic.

Import QuietHoursService.

Lemma overlap_swap (s1 e1 s2 e2 : number) :
  periodsOverlap s1 e1 s2 e2 = periodsOverlap s2 e2 s1 e1.
Proof.
  unfold periodsOverlap, gt.
  destruct (lt s1 e1), (lt s2 e2); cbn [existsb fst snd];
    repeat match goal with
           | |- context [lt ?a ?b] => destruct (lt a b)
           end; reflexivity.
Qed.

(** The overlap test does not depend on the order of the two intervals,
    whatever the numbers are, also when a time did not read as a number. *)
Theorem periodsOverlap_sym (s1 e1 s2 e2 : number) :
  periodsOverlap s1 e1 s2 e2 = periodsOverlap s2 e2 s1 e1.
Proof. apply overlap_swap. Qed.

(** A window whose start is a minute of the day overlaps itself. *)
Theorem periodsOverlap_self (s e : Z) :
  0 <= s < 1440 ->
  periodsOverlap (Int s) (Int e) (Int s) (Int e) = true.
Proof.
  intros Hs. unfold periodsOverlap, gt, lt.
  destruct (Z.ltb_spec s e) as [Hlt | Hge]; cbn [existsb fst snd].
  - apply Z.ltb_lt in Hlt. rewrite Hlt. reflexivity.
  - assert ((s <? 1440) = true) as -> by (apply Z.ltb_lt; lia). reflexivity.
Qed.

Lemma periodsOverlap_self_witness :
  periodsOverlap (Int 1320) (Int 420) (Int 1320) (Int 420) = true.
Proof. apply (periodsOverlap_self 1320 420). lia. Defined.

Lemma periodsOverlap_common_minute_witness :
  periodsOverlap (Int 1320) (Int 420) (Int 360) (Int 480) = true <->
  exists t, 0 <= t < 1440 /\
    isTimeInPeriod (Int t) (Int 1320) (Int 420) = true /\
    isTimeInPeriod (Int t) (Int 360) (Int 480) = true.
Proof.
  apply (periodsOverlap_common_minute 1320 420 360 480); lia.
Defined.

Lemma timeToMinutes_pad2_digits (h m : Z) :
  0 <= h <= 23 -> 0 <= m <= 59 ->
  timeToMinutes (Spec.pad2 h ++ ":" ++ Spec.pad2 m)%string = Int (h * 60 + m).
Proof.
  intros Hh Hm.
  pose (P := fun h m : Z =>
    match timeToMinutes (Spec.pad2 h ++ ":" ++ Spec.pad2 m)%string with
    | Int v => v =? h * 60 + m
    | NaN => false
    end).
  assert (HP : P h m = true).
  { apply (forallb_below (P h) 60); [| lia].
    apply (forallb_below (fun h => forallb (P h)
                            (List.map Z.of_nat (List.seq 0 60))) 24);
      [vm_compute; reflexivity | lia]. }
  unfold P in HP.
  destruct (timeToMinutes _); [| discriminate].
  apply Z.eqb_eq in HP. congruence.
Qed.

(** Reading a formatted time gives back its minute of the day, and reading
    is the only way to that minute: two formatted times that read alike are
    the same text. *)
Theorem timeToMinutes_format (h m : Z) :
  0 <= h <= 23 -> 0 <= m <= 59 ->
  timeToMinutes (Spec.pad2 h ++ ":" ++ Spec.pad2 m)%string = Int (h * 60 + m)
  /\
  forall h' m',
    0 <= h' <= 23 -> 0 <= m' <= 59 ->
    timeToMinutes (Spec.pad2 h' ++ ":" ++ Spec.pad2 m')%string
      = timeToMinutes (Spec.pad2 h ++ ":" ++ Spec.pad2 m)%string ->
    h' = h /\ m' = m.
Proof.
  intros Hh Hm. split; [apply timeToMinutes_pad2_digits; assumption |].
  intros h' m' Hh' Hm'. rewrite !timeToMinutes_pad2_digits by assumption.
  intros [= Heq]. lia.
Qed.

Lemma timeToMinutes_format_witness :
  timeToMinutes (Spec.pad2 7 ++ ":" ++ Spec.pad2 5)%string = Int (7 * 60 + 5).
Proof. apply (timeToMinutes_format 7 5); lia. Defined.

(** A pair of times that passes validation reads as two different minutes
    of the day, so a stored window is never empty nor the full day. *)
Theorem validated_times_proper (startTime endTime : string) :
  validateTimeFormat startTime endTime = Ok tt ->
  exists a b : Z,
    timeToMinutes startTime = Int a /\ timeToMinutes endTime = Int b /\
    0 <= a < 1440 /\ 0 <= b < 1440 /\ a <> b.
Proof.
  unfold validateTimeFormat.
  destruct (timeRegex_test startTime) eqn:Hs; [| discriminate].
  destruct (timeRegex_test endTime) eqn:He; [| discriminate].
  cbn [negb orb].
  destruct (String.eqb_spec startTime endTime) as [| Hne]; [discriminate |].
  intros _.
  apply timeRegex_test_isHHmm in Hs as (h1 & m1 & Hh1 & Hm1 & ->).
  apply timeRegex_test_isHHmm in He as (h2 & m2 & Hh2 & Hm2 & ->).
  exists (h1 * 60 + m1), (h2 * 60 + m2).
  rewrite !timeToMinutes_pad2_digits by assumption.
  repeat split; try lia.
  intros Heq. apply Hne.
  assert (h1 = h2) by lia. assert (m1 = m2) by lia. congruence.
Qed.

Lemma validated_times_proper_witness :
  exists a b : Z,
    timeToMinutes "22:00" = Int a /\ timeToMinutes "07:00" = Int b /\
    0 <= a < 1440 /\ 0 <= b < 1440 /\ a <> b.
Proof. apply (validated_times_proper "22:00" "07:00"). reflexivity. Defined.

(** The minute of the day read off a valid date is its epoch minute modulo
    the 1440 minutes of a day, also before 1970; an invalid date has none. *)
Theorem minuteOfDay_epoch (t : Z) :
  minuteOfDay (mkDate (Int t)) = Int ((t / 60000) mod 1440) /\
  0 <= (t / 60000) mod 1440 < 1440 /\
  minuteOfDay (mkDate NaN) = NaN.
Proof.
  split; [| split; [apply Z.mod_pos_bound; lia | reflexivity]].
  unfold minuteOfDay, getUTCHours, getUTCMinutes, msPerHour, msPerMinute.
  cbn [getTime mul add]. f_equal.
  replace (t / 3600000) with (t / 60000 / 60)
    by (rewrite Z.div_div by lia; reflexivity).
  generalize (t / 60000). intros q.
  Z.div_mod_to_equations. lia.
Qed.

(** With an invalid date [isWithinQuietHours] answers false, whatever is
    stored. *)
Theorem invalid_date_never_quiet (uid : string) (db : Table) :
  isWithinQuietHours uid (mkDate NaN) db = false.
Proof.
  rewrite isWithinQuietHours_existsb.
  apply not_true_is_false. intros H.
  apply existsb_exists in H as (period & _ & Hc).
  unfold contains, isTimeInPeriod in Hc. cbn in Hc.
  destruct (lt _ _); discriminate.
Qed.

End DayArithmetic.

(** ** The table of windows under the service operations *)

Section Windows.

Import QuietHoursService.

Lemma insertByStart_perm (e : QuietHoursEntity) (l : list QuietHoursEntity) :
  Permutation (QuietHoursRepository.insertByStart e l) (e :: l).
Proof.
  induction l as [| x l IH]; cbn [QuietHoursRepository.insertByStart].
  - reflexivity.
  - destruct (String.leb (startTime e) (startTime x)); [reflexivity |].
    rewrite IH. apply perm_swap.
Qed.

Lemma insertByStart_sorted (e : QuietHoursEntity)
  (l : list QuietHoursEntity) :
  Sorted byStart l -> Sorted byStart (QuietHoursRepository.insertByStart e l).
Proof.
  induction 1 as [| x l Hsorted IH Hhd];
    cbn [QuietHoursRepository.insertByStart].
  - repeat constructor.
  - destruct (String.leb (startTime e) (startTime x)) eqn:E.
    + constructor; [constructor; assumption | constructor; exact E].
    + constructor; [exact IH |].
      assert (Hxe : byStart x e).
      { unfold byStart.
        destruct (String.leb_total (startTime e) (startTime x)); congruence. }
      destruct Hhd as [| y l Hxy]; cbn [QuietHoursRepository.insertByStart].
      * constructor. exact Hxe.
      * destruct (String.leb (startTime e) (startTime y));
          constructor; assumption.
Qed.

(** [findByUserId] returns every row of the user once per occurrence, and
    no other row, in ascending order of the start time. *)
Theorem findByUserId_sorted (uid : string) (db : Table) :
  Permutation (QuietHoursRepository.findByUserId uid db)
    (List.filter (fun e => String.eqb (userId e) uid) db) /\
  Sorted byStart (QuietHoursRepository.findByUserId uid db).
Proof.
  unfold QuietHoursRepository.findByUserId.
  generalize (List.filter (fun e => String.eqb (userId e) uid) db).
  intros l. unfold QuietHoursRepository.orderByStart. split.
  - induction l as [| x l IH]; cbn [fold_right]; [reflexivity |].
    rewrite insertByStart_perm, IH. reflexivity.
  - induction l as [| x l IH]; cbn [fold_right]; [constructor |].
    apply insertByStart_sorted. exact IH.
Qed.

(** Pairs of a list, in list order. *)
Lemma FOP_impl_In {A : Type} (P Q : A -> A -> Prop) (l : list A) :
  ForallOrdPairs P l ->
  (forall a b, In a l -> In b l -> P a b -> Q a b) ->
  ForallOrdPairs Q l.
Proof.
  induction 1 as [| a l Hhead Htail IH]; intros Himpl; constructor.
  - rewrite List.Forall_forall in *. intros b Hb.
    apply Himpl; [left; reflexivity | right; exact Hb | apply Hhead; exact Hb].
  - apply IH. intros x y Hx Hy. apply Himpl; right; assumption.
Qed.

Lemma FOP_and {A : Type} (P Q : A -> A -> Prop) (l : list A) :
  ForallOrdPairs P l -> ForallOrdPairs Q l ->
  ForallOrdPairs (fun a b => P a b /\ Q a b) l.
Proof.
  induction 1 as [| a l Hhead Htail IH]; intros HQ; [constructor |].
  inversion_clear HQ as [| ? ? Hq Hqs]. constructor; [| apply IH; exact Hqs].
  rewrite List.Forall_forall in *. intros b Hb. split; auto.
Qed.

Lemma FOP_map {A B : Type} (f : A -> B) (R : B -> B -> Prop) (l : list A) :
  ForallOrdPairs (fun a b => R (f a) (f b)) l ->
  ForallOrdPairs R (List.map f l).
Proof.
  induction 1 as [| a l Hhead Htail IH]; cbn [List.map]; constructor.
  - rewrite List.Forall_forall in *. intros b Hb.
    apply in_map_iff in Hb as (x & <- & Hx). apply Hhead. exact Hx.
  - exact IH.
Qed.

Lemma FOP_snoc {A : Type} (R : A -> A -> Prop) (l : list A) (x : A) :
  ForallOrdPairs R l -> Forall (fun a => R a x) l ->
  ForallOrdPairs R (l ++ [x]).
Proof.
  induction 1 as [| a l Hhead Htail IH]; intros Hx; cbn [app].
  - repeat constructor.
  - inversion_clear Hx as [| ? ? Hax Hlx].
    constructor; [| apply IH; exact Hlx].
    apply List.Forall_app. split; [exact Hhead | constructor; [exact Hax | constructor]].
Qed.

Lemma FOP_filter {A : Type} (R : A -> A -> Prop) (f : A -> bool)
  (l : list A) :
  ForallOrdPairs R l -> ForallOrdPairs R (List.filter f l).
Proof.
  induction 1 as [| a l Hhead Htail IH]; cbn [List.filter]; [constructor |].
  destruct (f a); [| exact IH]. constructor; [| exact IH].
  rewrite List.Forall_forall in *. intros b Hb.
  apply filter_In in Hb as [Hb _]. apply Hhead. exact Hb.
Qed.

Lemma FOP_distinct_ids (l : Table) :
  uniqueIds l -> ForallOrdPairs (fun a b => id a <> id b) l.
Proof.
  unfold uniqueIds. induction l as [| a l IH]; cbn [List.map]; intros Hnd;
    [constructor |].
  inversion_clear Hnd as [| ? ? Hnotin Hrest]. constructor; [| auto].
  rewrite List.Forall_forall. intros b Hb Heq. apply Hnotin.
  rewrite Heq. apply in_map. exact Hb.
Qed.

Lemma uniqueIds_same (l : Table) (a b : QuietHoursEntity) :
  uniqueIds l -> In a l -> In b l -> id a = id b -> a = b.
Proof.
  unfold uniqueIds. induction l as [| x l IH]; cbn [List.map];
    intros Hnd Ha Hb Heq; [destruct Ha |].
  inversion_clear Hnd as [| ? ? Hnotin Hrest].
  destruct Ha as [-> | Ha], Hb as [-> | Hb]; auto.
  - exfalso. apply Hnotin. rewrite Heq. apply in_map. exact Hb.
  - exfalso. apply Hnotin. rewrite <- Heq. apply in_map. exact Ha.
Qed.

Lemma hasOverlap_false (input : QuietHourInput)
  (existing : list QuietHoursEntity) (editingId : option string) :
  hasOverlap input existing editingId = false <->
  forall period,
    In period existing ->
    isEdited editingId period = true \/ conflicts input period = false.
Proof.
  rewrite hasOverlap_existsb. split.
  - intros Hnone period Hin.
    destruct (isEdited editingId period) eqn:E; [left; reflexivity | right].
    destruct (conflicts input period) eqn:C; [| reflexivity].
    assert (existsb (fun p => negb (isEdited editingId p) && conflicts input p)
              existing = true) as Hsome
      by (apply existsb_exists; exists period; rewrite E, C; auto).
    congruence.
  - intros Hall. apply not_true_is_false. intros Hsome.
    apply existsb_exists in Hsome as (period & Hin & Hc).
    apply andb_true_iff in Hc as [He Hc]. apply negb_true_iff in He.
    destruct (Hall period Hin); congruence.
Qed.

Lemma isEdited_id (i : string) (period : QuietHoursEntity) :
  isEdited (Some i) period = true -> id period = i.
Proof.
  unfold isEdited. intros H. apply andb_true_iff in H as [_ H].
  apply String.eqb_eq in H. exact H.
Qed.

Lemma owns_spec (uid i : string) (e : QuietHoursEntity) :
  QuietHoursRepository.owns uid i e = true <-> id e = i /\ userId e = uid.
Proof.
  unfold QuietHoursRepository.owns.
  rewrite andb_true_iff, !String.eqb_eq. tauto.
Qed.

Lemma known_iff (uid i : string) (db : Table) :
  existsb (fun qh => String.eqb (id qh) i)
    (QuietHoursRepository.findByUserId uid db) = true <->
  exists qh, In qh db /\ userId qh = uid /\ id qh = i.
Proof.
  rewrite existsb_id. split; intros (qh & H).
  - destruct H as [Hin Hid]. apply In_findByUserId in Hin. exists qh. tauto.
  - exists qh. rewrite In_findByUserId. tauto.
Qed.

Lemma find_owns_none (uid i : string) (db : Table) :
  (forall qh, In qh db -> userId qh = uid -> id qh <> i) ->
  List.find (QuietHoursRepository.owns uid i) db = None.
Proof.
  intros Hnone.
  destruct (List.find (QuietHoursRepository.owns uid i) db) as [e |] eqn:E;
    [| reflexivity].
  apply find_some in E as [Hin Ho]. apply owns_spec in Ho as [Hi Hu].
  exfalso. apply (Hnone e Hin Hu Hi).
Qed.

(** How each service operation runs once its checks are decided. *)
Lemma createQuietHour_run (g : Generated) (uid : string)
  (input : QuietHourInput) (db : Table) :
  validateTimeFormat (in_startTime input) (in_endTime input) = Ok tt ->
  createQuietHour g uid input db =
  if hasOverlap input (QuietHoursRepository.findByUserId uid db) None
  then (Throw overlapError, db)
  else (Ok (created g uid input), db ++ [created g uid input]).
Proof.
  intros Hvalid. unfold createQuietHour, bind, lift, findByUserId, throw.
  rewrite Hvalid. destruct (hasOverlap _ _ _); reflexivity.
Qed.

Lemma updateQuietHour_run (g : Generated) (uid i : string)
  (input : QuietHourInput) (db : Table) :
  validateTimeFormat (in_startTime input) (in_endTime input) = Ok tt ->
  updateQuietHour g uid i input db =
  match List.find (QuietHoursRepository.owns uid i) db with
  | None => (Throw QuietHoursRepository.notFound, db)
  | Some entity =>
      if hasOverlap input (QuietHoursRepository.findByUserId uid db) (Some i)
      then (Throw overlapError, db)
      else (Ok (saved g input entity),
            List.map (fun e => if String.eqb (id e) i
                               then saved g input entity else e) db)
  end.
Proof.
  intros Hvalid. unfold updateQuietHour, bind, lift, findByUserId, throw.
  rewrite Hvalid.
  destruct (List.find (QuietHoursRepository.owns uid i) db) as [entity |] eqn:E.
  - assert (Hknown : existsb (fun qh => String.eqb (id qh) i)
                       (QuietHoursRepository.findByUserId uid db) = true).
    { apply known_iff. apply find_some in E as [Hin Ho].
      apply owns_spec in Ho. exists entity. tauto. }
    rewrite Hknown. cbn [negb].
    destruct (hasOverlap _ _ _); [reflexivity |].
    unfold QuietHoursRepository.update. rewrite E.
    apply find_some in E as [_ Ho]. apply owns_spec in Ho as [<- _].
    reflexivity.
  - assert (Hknown : existsb (fun qh => String.eqb (id qh) i)
                       (QuietHoursRepository.findByUserId uid db) = false).
    { apply not_true_is_false. intros H.
      apply known_iff in H as (qh & Hin & Hu & Hi).
      apply (find_none _ _ E) in Hin. apply not_true_iff_false in Hin.
      apply Hin. apply owns_spec. tauto. }
    rewrite Hknown. reflexivity.
Qed.

Lemma deleteQuietHour_run (uid i : string) (db : Table) :
  deleteQuietHour uid i db =
  match List.find (QuietHoursRepository.owns uid i) db with
  | None => (Throw QuietHoursRepository.notFound, db)
  | Some _ => (Ok tt, List.filter (fun e => negb (String.eqb (id e) i)) db)
  end.
Proof.
  unfold deleteQuietHour, bind, findByUserId, throw.
  destruct (List.find (QuietHoursRepository.owns uid i) db) as [entity |] eqn:E.
  - assert (Hknown : existsb (fun qh => String.eqb (id qh) i)
                       (QuietHoursRepository.findByUserId uid db) = true).
    { apply known_iff. apply find_some in E as [Hin Ho].
      apply owns_spec in Ho. exists entity. tauto. }
    rewrite Hknown. cbn [negb].
    unfold QuietHoursRepository.delete. rewrite E.
    apply find_some in E as [_ Ho]. apply owns_spec in Ho as [<- _].
    reflexivity.
  - assert (Hknown : existsb (fun qh => String.eqb (id qh) i)
                       (QuietHoursRepository.findByUserId uid db) = false).
    { apply not_true_is_false. intros H.
      apply known_iff in H as (qh & Hin & Hu & Hi).
      apply (find_none _ _ E) in Hin. apply not_true_iff_false in Hin.
      apply Hin. apply owns_spec. tauto. }
    rewrite Hknown. reflexivity.
Qed.

(** A well-formed window that conflicts with no stored window of the user is
    stored as a new row at the end of the table, with the generated id and
    timestamps, and the user's listing then shows it beside the rows it
    showed before. *)
Theorem createQuietHour_stores (g : Generated) (uid : string)
  (input : QuietHourInput) (db : Table) :
  validateTimeFormat (in_startTime input) (in_endTime input) = Ok tt ->
  (forall period,
     In period db -> userId period = uid -> conflicts input period = false) ->
  let entity := created g uid input in
  createQuietHour g uid input db = (Ok entity, db ++ [entity]) /\
  forall e,
    In e (QuietHoursRepository.findByUserId uid (db ++ [entity])) <->
    e = entity \/ In e (QuietHoursRepository.findByUserId uid db).
Proof.
  intros Hvalid Hfree entity. split.
  - rewrite (createQuietHour_run g uid input db Hvalid).
    assert (hasOverlap input (QuietHoursRepository.findByUserId uid db) None
            = false) as ->; [| reflexivity].
    apply hasOverlap_false. intros period Hin. right.
    apply In_findByUserId in Hin as [Hin Hu]. apply Hfree; assumption.
  - intros e. rewrite !In_findByUserId, in_app_iff. cbn [In].
    split.
    + intros [[Hin | [<- | []]] Hu]; [right; tauto | left; reflexivity].
    + intros [-> | [Hin Hu]]; [split; [right; left |]; reflexivity | tauto].
Qed.

Lemma createQuietHour_stores_witness :
  createQuietHour (mkGenerated "w2" morning) "u1"
    (mkQuietHourInput "07:00" "09:00") [overnight]
  = (Ok (created (mkGenerated "w2" morning) "u1"
           (mkQuietHourInput "07:00" "09:00")),
     [overnight;
      created (mkGenerated "w2" morning) "u1"
        (mkQuietHourInput "07:00" "09:00")]).
Proof.
  apply (createQuietHour_stores (mkGenerated "w2" morning) "u1"
           (mkQuietHourInput "07:00" "09:00") [overnight]).
  - reflexivity.
  - intros period [<- | []] _. reflexivity.
Defined.



(** An id that is not the id of a window of the user, be it unknown or the
    id of another user's window, is answered with the not-found error by
    [deleteQuietHour] and, for a well-formed input, by [updateQuietHour]; the
    table stays as it is. *)
Theorem foreign_window_not_found (g : Generated) (uid i : string)
  (input : QuietHourInput) (db : Table) :
  (forall qh, In qh db -> userId qh = uid -> id qh <> i) ->
  deleteQuietHour uid i db = (Throw QuietHoursRepository.notFound, db) /\
  (validateTimeFormat (in_startTime input) (in_endTime input) = Ok tt ->
   updateQuietHour g uid i input db
   = (Throw QuietHoursRepository.notFound, db)).
Proof.
  intros Hnone. pose proof (find_owns_none uid i db Hnone) as E. split.
  - rewrite deleteQuietHour_run, E. reflexivity.
  - intros Hvalid. rewrite (updateQuietHour_run g uid i input db Hvalid), E.
    reflexivity.
Qed.

Lemma foreign_window_not_found_witness :
  deleteQuietHour "u2" "w1" [overnight]
  = (Throw QuietHoursRepository.notFound, [overnight]) /\
  updateQuietHour (mkGenerated "w2" morning) "u2" "w1"
    (mkQuietHourInput "10:00" "11:00") [overnight]
  = (Throw QuietHoursRepository.notFound, [overnight]).
Proof.
  assert (H : forall qh, In qh [overnight] -> userId qh = "u2" -> id qh <> "w1")
    by (intros qh [<- | []] Hu; discriminate).
  split.
  - apply (proj1 (foreign_window_not_found (mkGenerated "w2" morning) "u2"
                    "w1" (mkQuietHourInput "10:00" "11:00") [overnight] H)).
  - apply (proj2 (foreign_window_not_found (mkGenerated "w2" morning) "u2"
                    "w1" (mkQuietHourInput "10:00" "11:00") [overnight] H)).
    reflexivity.
Defined.

(** Deleting a window of the user removes the rows with its id and nothing
    else, and deleting it once more is answered with the not-found error. *)
Theorem deleteQuietHour_removes (uid i : string) (db : Table) :
  (exists qh, In qh db /\ userId qh = uid /\ id qh = i) ->
  let db' := List.filter (fun e => negb (String.eqb (id e) i)) db in
  deleteQuietHour uid i db = (Ok tt, db') /\
  deleteQuietHour uid i db' = (Throw QuietHoursRepository.notFound, db').
Proof.
  intros (qh & Hin & Hu & Hid) db'. split.
  - rewrite deleteQuietHour_run.
    destruct (List.find (QuietHoursRepository.owns uid i) db) eqn:E;
      [reflexivity |].
    apply (find_none _ _ E) in Hin. apply not_true_iff_false in Hin.
    exfalso. apply Hin. apply owns_spec. tauto.
  - rewrite deleteQuietHour_run, find_owns_none; [reflexivity |].
    intros e He _ Heq. apply filter_In in He as [_ He].
    rewrite Heq, String.eqb_refl in He. discriminate.
Qed.

Lemma deleteQuietHour_removes_witness :
  deleteQuietHour "u1" "w1" [overnight] = (Ok tt, []) /\
  deleteQuietHour "u1" "w1" [] = (Throw QuietHoursRepository.notFound, []).
Proof.
  apply (deleteQuietHour_removes "u1" "w1" [overnight]).
  exists overnight. split; [left; reflexivity | split; reflexivity].
Defined.

Lemma rejected_unchanged (g : Generated) (uid i : string)
  (input : QuietHourInput) (db : Table) (e : Error) :
  validateTimeFormat (in_startTime input) (in_endTime input) = Throw e ->
  createQuietHour g uid input db = (Throw e, db) /\
  updateQuietHour g uid i input db = (Throw e, db).
Proof.
  intros Hbad. unfold createQuietHour, updateQuietHour, bind, lift.
  rewrite Hbad. split; reflexivity.
Qed.

Lemma unedited_free (uid i : string) (input : QuietHourInput) (db : Table)
  (b : QuietHoursEntity) :
  hasOverlap input (QuietHoursRepository.findByUserId uid db) (Some i) = false ->
  In b db -> userId b = uid -> id b <> i -> conflicts input b = false.
Proof.
  intros Hfree Hb Hu Hne.
  destruct (proj1 (hasOverlap_false _ _ _) Hfree b) as [Hed | Hc];
    [apply In_findByUserId; tauto | | exact Hc].
  apply isEdited_id in Hed. contradiction.
Qed.

(** Every service operation keeps the windows of each user pairwise
    non-overlapping, given that ids are unique in the table. *)
Theorem windows_stay_apart (g : Generated) (uid i : string)
  (input : QuietHourInput) (db : Table) :
  nonOverlapping db -> uniqueIds db ->
  nonOverlapping (snd (createQuietHour g uid input db)) /\
  nonOverlapping (snd (updateQuietHour g uid i input db)) /\
  nonOverlapping (snd (deleteQuietHour uid i db)).
Proof.
  intros Hinv Hids. unfold nonOverlapping in *.
  destruct (validateTimeFormat (in_startTime input) (in_endTime input))
    as [[] | bad] eqn:Hvalid.
  - split; [| split].
    + rewrite (createQuietHour_run g uid input db Hvalid).
      destruct (hasOverlap _ _ None) eqn:Hfree; [exact Hinv |].
      cbn [snd]. apply FOP_snoc; [exact Hinv |].
      apply List.Forall_forall. intros a Ha Hu. cbn [userId] in Hu.
      destruct (proj1 (hasOverlap_false _ _ _) Hfree a) as [Hed | Hc];
        [apply In_findByUserId; tauto | discriminate |].
      unfold conflicts in Hc. rewrite overlap_swap in Hc. exact Hc.
    + rewrite (updateQuietHour_run g uid i input db Hvalid).
      destruct (List.find _ db) as [entity |] eqn:E; [| exact Hinv].
      destruct (hasOverlap _ _ (Some i)) eqn:Hfree; [exact Hinv |].
      cbn [snd]. apply find_some in E as [Hin Ho].
      apply owns_spec in Ho as [Hid Hu].
      apply FOP_map.
      apply (FOP_impl_In _ _ _ (FOP_and _ _ _ Hinv (FOP_distinct_ids db Hids))).
      intros a b Ha Hb [Hab Hne].
      destruct (String.eqb_spec (id a) i) as [Hai | Hai],
               (String.eqb_spec (id b) i) as [Hbi | Hbi].
      * congruence.
      * intros Hsame. cbn [saved userId startTime endTime] in *.
        change (conflicts input b = false).
        apply (unedited_free uid i input db b Hfree Hb); congruence.
      * intros Hsame. cbn [saved userId startTime endTime] in *.
        rewrite overlap_swap. change (conflicts input a = false).
        apply (unedited_free uid i input db a Hfree Ha); congruence.
      * exact Hab.
    + rewrite deleteQuietHour_run.
      destruct (List.find _ db); [| exact Hinv].
      cbn [snd]. apply FOP_filter. exact Hinv.
  - destruct (rejected_unchanged g uid i input db bad Hvalid) as [-> ->].
    split; [exact Hinv | split; [exact Hinv |]].
    rewrite deleteQuietHour_run.
    destruct (List.find _ db); [| exact Hinv].
    cbn [snd]. apply FOP_filter. exact Hinv.
Qed.

Lemma windows_stay_apart_witness :
  nonOverlapping
    (snd (createQuietHour (mkGenerated "w2" morning) "u1"
            (mkQuietHourInput "07:00" "09:00") [overnight])).
Proof.
  apply (windows_stay_apart (mkGenerated "w2" morning) "u1" "w1"
           (mkQuietHourInput "07:00" "09:00") [overnight]).
  - repeat constructor.
  - repeat constructor. intros [].
Defined.

Lemma rowsOfOthers_map (uid : string) (f : QuietHoursEntity -> QuietHoursEntity)
  (l : Table) :
  (forall e, In e l -> userId e <> uid -> f e = e) ->
  (forall e, In e l -> userId e = uid -> userId (f e) = uid) ->
  rowsOfOthers uid (List.map f l) = rowsOfOthers uid l.
Proof.
  unfold rowsOfOthers. induction l as [| x l IH]; intros Hkeep Hown;
    [reflexivity |].
  cbn [List.map List.filter].
  rewrite (IH (fun e He => Hkeep e (or_intror He))
              (fun e He => Hown e (or_intror He))).
  destruct (String.eqb_spec (userId x) uid) as [Hx | Hx].
  - rewrite (proj2 (String.eqb_eq _ _) (Hown x (or_introl eq_refl) Hx)).
    reflexivity.
  - rewrite (Hkeep x (or_introl eq_refl) Hx).
    rewrite (proj2 (String.eqb_neq _ _) Hx). reflexivity.
Qed.

Lemma rowsOfOthers_filter (uid : string) (keep : QuietHoursEntity -> bool)
  (l : Table) :
  (forall e, In e l -> userId e <> uid -> keep e = true) ->
  rowsOfOthers uid (List.filter keep l) = rowsOfOthers uid l.
Proof.
  unfold rowsOfOthers. induction l as [| x l IH]; intros Hkeep;
    [reflexivity |].
  cbn [List.filter].
  specialize (IH (fun e He => Hkeep e (or_intror He))).
  destruct (String.eqb_spec (userId x) uid) as [Hx | Hx]; cbn [negb].
  - destruct (keep x); cbn [List.filter]; [| exact IH].
    rewrite (proj2 (String.eqb_eq _ _) Hx). exact IH.
  - rewrite (Hkeep x (or_introl eq_refl) Hx). cbn [List.filter].
    rewrite (proj2 (String.eqb_neq _ _) Hx). cbn [negb]. f_equal. exact IH.
Qed.

(** No service operation of a user, successful or not, changes a row of
    another user, given that ids are unique in the table. *)
Theorem other_users_rows_untouched (g : Generated) (uid i : string)
  (input : QuietHourInput) (db : Table) :
  uniqueIds db ->
  rowsOfOthers uid (snd (createQuietHour g uid input db))
    = rowsOfOthers uid db /\
  rowsOfOthers uid (snd (updateQuietHour g uid i input db))
    = rowsOfOthers uid db /\
  rowsOfOthers uid (snd (deleteQuietHour uid i db)) = rowsOfOthers uid db.
Proof.
  intros Hids.
  assert (Hdelete :
    rowsOfOthers uid (snd (deleteQuietHour uid i db)) = rowsOfOthers uid db).
  { rewrite deleteQuietHour_run.
    destruct (List.find _ db) as [entity |] eqn:E; [| reflexivity].
    cbn [snd]. apply find_some in E as [Hin Ho].
    apply owns_spec in Ho as [Hid Hu].
    apply rowsOfOthers_filter. intros e He Hne.
    apply negb_true_iff, String.eqb_neq. intros Heq.
    apply Hne. rewrite (uniqueIds_same db e entity Hids He Hin); congruence. }
  destruct (validateTimeFormat (in_startTime input) (in_endTime input))
    as [[] | bad] eqn:Hvalid.
  - split; [| split; [| exact Hdelete]].
    + rewrite (createQuietHour_run g uid input db Hvalid).
      destruct (hasOverlap _ _ None); [reflexivity |].
      cbn [snd]. unfold rowsOfOthers. rewrite List.filter_app.
      cbn [List.filter created userId]. rewrite String.eqb_refl.
      apply app_nil_r.
    + rewrite (updateQuietHour_run g uid i input db Hvalid).
      destruct (List.find _ db) as [entity |] eqn:E; [| reflexivity].
      destruct (hasOverlap _ _ (Some i)); [reflexivity |].
      cbn [snd]. apply find_some in E as [Hin Ho].
      apply owns_spec in Ho as [Hid Hu].
      apply rowsOfOthers_map.
      * intros e He Hne.
        destruct (String.eqb_spec (id e) i) as [Heq | _]; [| reflexivity].
        exfalso. apply Hne.
        rewrite (uniqueIds_same db e entity Hids He Hin); congruence.
      * intros e He Hue.
        destruct (String.eqb (id e) i); [exact Hu | exact Hue].
  - destruct (rejected_unchanged g uid i input db bad Hvalid) as [-> ->].
    split; [reflexivity | split; [reflexivity | exact Hdelete]].
Qed.

Lemma other_users_rows_untouched_witness :
  rowsOfOthers "u2"
    (snd (deleteQuietHour "u2" "w1" [overnight])) = rowsOfOthers "u2" [overnight].
Proof.
  apply (other_users_rows_untouched (mkGenerated "w2" morning) "u2" "w1"
           (mkQuietHourInput "07:00" "09:00") [overnight]).
  repeat constructor. intros [].
Defined.

End Windows.

(** ** The routes *)

Section RouteAnswers.

Import QuietHoursService.

Lemma validateTimeFormat_error (startTime endTime : string) (e : Error) :
  validateTimeFormat startTime endTime = Throw e ->
  name e = "ValidationError".
Proof.
  unfold validateTimeFormat.
  destruct (negb _ || negb _); [intros [= <-]; reflexivity |].
  destruct (String.eqb _ _); [intros [= <-]; reflexivity | discriminate].
Qed.




(** Without an authenticated user with an id no route reaches the service:
    the answer is 500 for an authentication error and 401 otherwise, and the
    table stays as it is. *)
Theorem routes_require_user (a : Routes.Authentication) (g : Generated)
  (i startTime endTime : string) (db : Table) :
  auth_failed a ->
  let answer :=
    match Routes.auth_err a with
    | Some _ => Routes.Json 500 (Routes.Message "Authentication error")
    | None => Routes.Json 401 (Routes.Message "Unauthorized")
    end in
  Routes.authMiddleware a Routes.get db = (answer, db) /\
  Routes.authMiddleware a (Routes.post g startTime endTime) db = (answer, db) /\
  Routes.authMiddleware a (Routes.put g i startTime endTime) db = (answer, db) /\
  Routes.authMiddleware a (Routes.delete i) db = (answer, db).
Proof.
  unfold auth_failed, Routes.authMiddleware, Routes.get, Routes.post,
    Routes.put, Routes.delete.
  destruct (Routes.auth_err a) as [err |]; cbv zeta.
  - intros _. repeat split; reflexivity.
  - intros [Herr | Huser]; [congruence |].
    destruct (Routes.auth_user a) as [user |];
      [rewrite Huser |]; repeat split; reflexivity.
Qed.

Lemma routes_require_user_witness :
  Routes.authMiddleware (Routes.mkAuthentication None None)
    (Routes.delete "w1") [overnight]
  = (Routes.Json 401 (Routes.Message "Unauthorized"), [overnight]).
Proof.
  apply (routes_require_user (Routes.mkAuthentication None None)
           (mkGenerated "w2" morning) "w1" "07:00" "09:00" [overnight]).
  right. reflexivity.
Defined.



(** [PUT /:id] and [DELETE /:id] with an id that is not the id of a window
    of the authenticated user, such as the id of another user's window,
    answer 404 and leave the table as it is; [PUT] checks the times first and
    answers 400 for malformed ones. *)
Theorem foreign_id_answers_404 (g : Generated) (i startTime endTime : string)
  (user : option Routes.User) (uid : string) (db : Table) :
  Routes.userIdOf user = Some uid ->
  (forall qh, In qh db -> userId qh = uid -> id qh <> i) ->
  let notFound :=
    Routes.Json 404 (Routes.Message "Quiet hour period not found.") in
  Routes.delete i user db = (notFound, db) /\
  Routes.put g i startTime endTime user db =
  match validateTimeFormat startTime endTime with
  | Throw e => (Routes.Json 400 (Routes.Message (message e)), db)
  | Ok _ => (notFound, db)
  end.
Proof.
  intros Huser Hnone notFound.
  pose (input := {| in_startTime := startTime; in_endTime := endTime |}).
  unfold Routes.delete, Routes.put. rewrite Huser. fold input.
  rewrite deleteQuietHour_run, (find_owns_none uid i db Hnone).
  split; [reflexivity |].
  destruct (validateTimeFormat startTime endTime) as [[] | bad] eqn:Hvalid.
  - rewrite (updateQuietHour_run g uid i input db Hvalid).
    rewrite (find_owns_none uid i db Hnone). reflexivity.
  - rewrite (proj2 (rejected_unchanged g uid i input db bad Hvalid)).
    rewrite (validateTimeFormat_error _ _ _ Hvalid). reflexivity.
Qed.

Lemma foreign_id_answers_404_witness :
  Routes.delete "w1" (Some (Routes.mkUser "u2")) [overnight]
  = (Routes.Json 404 (Routes.Message "Quiet hour period not found."),
     [overnight]).
Proof.
  apply (foreign_id_answers_404 (mkGenerated "w2" morning) "w1" "07:00"
           "09:00" (Some (Routes.mkUser "u2")) "u2" [overnight] eq_refl).
  intros qh [<- | []] Hu. discriminate.
Defined.


End RouteAnswers.

(** ** The settings form *)

Section Form.

Import QuietHoursService.

(** The check of the form and the checks of the backend agree: on a listing
    that shows the stored windows, [validateQuietHourInput] accepts exactly
    the inputs that [validateTimeFormat] and [hasOverlap] accept, and shows
    the message of the error the backend would raise. *)
Theorem form_agrees_with_backend (input : QuietHourInput)
  (periods : list QuietHoursSettings.QuietHourPeriod)
  (existing : list QuietHoursEntity) (editingId : option string) :
  Forall2 shows periods existing ->
  QuietHoursSettings.validateQuietHourInput input periods editingId =
  match validateTimeFormat (in_startTime input) (in_endTime input) with
  | Throw e => Some (message e)
  | Ok _ =>
      if hasOverlap input existing editingId
      then Some (message overlapError)
      else None
  end.
Proof.
  intros Hshows.
  unfold QuietHoursSettings.validateQuietHourInput, validateTimeFormat.
  destruct (negb _ || negb _); [reflexivity |].
  destruct (String.eqb _ _); [reflexivity |].
  unfold hasOverlap. cbv zeta.
  induction Hshows as [| period e periods existing Hpe Hrest IH];
    [reflexivity |].
  destruct Hpe as (Hid & Hs & He). unfold isEdited.
  rewrite Hid, Hs, He.
  change QuietHoursSettings.toMinutes with timeToMinutes in *.
  change QuietHoursSettings.periodsOverlap with periodsOverlap in *.
  destruct (match editingId with
            | Some e0 => negb (String.eqb e0 "") && String.eqb (id e) e0
            | None => false
            end); [exact IH |].
  destruct (periodsOverlap _ _ _ _); [reflexivity | exact IH].
Qed.

Lemma form_agrees_with_backend_witness :
  QuietHoursSettings.validateQuietHourInput
    (mkQuietHourInput "06:00" "08:00")
    [QuietHoursSettings.mkQuietHourPeriod "w1" "22:00" "07:00"
       "2023-11-14T22:13:20.000Z" "2023-11-14T22:13:20.000Z"] None
  = Some "Quiet hour periods cannot overlap.".
Proof.
  rewrite (form_agrees_with_backend (mkQuietHourInput "06:00" "08:00")
             [QuietHoursSettings.mkQuietHourPeriod "w1" "22:00" "07:00"
                "2023-11-14T22:13:20.000Z" "2023-11-14T22:13:20.000Z"]
             [overnight] None).
  - reflexivity.
  - constructor; [| constructor]. split; [| split]; reflexivity.
Defined.

Lemma split_no_separator (sep : ascii) (s : string) :
  ~ In sep (list_ascii_of_string s) -> split sep s = [s].
Proof.
  induction s as [| c s IH]; cbn [split list_ascii_of_string];
    intros Hno; [reflexivity |].
  destruct (Ascii.eqb_spec c sep) as [-> | _];
    [exfalso; apply Hno; left; reflexivity |].
  rewrite IH by (intros Hin; apply Hno; right; exact Hin). reflexivity.
Qed.

(** [formatTime] leaves a well-formed time as it is, gives the empty text
    for the empty text, and fails on any other text without a colon. *)
Theorem formatTime_shapes (time : string) :
  (timeRegex_test time = true ->
   QuietHoursSettings.formatTime time = Some time) /\
  (time = "" -> QuietHoursSettings.formatTime time = Some "") /\
  (time <> "" -> ~ In ":"%char (list_ascii_of_string time) ->
   QuietHoursSettings.formatTime time = None).
Proof.
  split; [| split].
  - intros Hok. apply timeRegex_test_isHHmm in Hok as (h & m & Hh & Hm & ->).
    pose (P := fun h m : Z =>
      let text := (Spec.pad2 h ++ ":" ++ Spec.pad2 m)%string in
      match QuietHoursSettings.formatTime text with
      | Some shown => String.eqb shown text
      | None => false
      end).
    assert (HP : P h m = true).
    { apply (forallb_below (P h) 60); [| lia].
      apply (forallb_below (fun h => forallb (P h)
                              (List.map Z.of_nat (List.seq 0 60))) 24);
        [vm_compute; reflexivity | lia]. }
    unfold P in HP. cbv zeta in HP.
    destruct (QuietHoursSettings.formatTime _); [| discriminate].
    apply String.eqb_eq in HP. congruence.
  - intros ->. reflexivity.
  - intros Hne Hno. unfold QuietHoursSettings.formatTime.
    rewrite (proj2 (String.eqb_neq _ _) Hne).
    rewrite (split_no_separator _ _ Hno). reflexivity.
Qed.

Lemma formatTime_shapes_witness :
  QuietHoursSettings.formatTime "22:00" = Some "22:00" /\
  QuietHoursSettings.formatTime "2200" = None.
Proof.
  split.
  - apply (proj1 (formatTime_shapes "22:00")). reflexivity.
  - apply (proj2 (proj2 (formatTime_shapes "2200"))); [discriminate |].
    cbn. intuition discriminate.
Defined.

End Form.

(** ** The queues under submission and sweeps *)

Section Queues.

Import NotificationService.

Variable provider : list Attempt -> NotificationPayload -> Result unit.

Lemma quiet_needs_minute (uid : string) (date : Date) (db : Table) :
  getTime date = NaN ->
  QuietHoursService.isWithinQuietHours uid date db = false.
Proof.
  intros Hinvalid. rewrite isWithinQuietHours_existsb.
  apply not_true_is_false. intros H.
  apply existsb_exists in H as (period & _ & Hc).
  unfold contains, minuteOfDay, getUTCHours, getUTCMinutes in Hc.
  rewrite Hinvalid in Hc. unfold QuietHoursService.isTimeInPeriod in Hc.
  cbn in Hc. destruct (lt _ _); discriminate.
Qed.

Lemma sendNotification_run (now : Date) (p : NotificationPayload)
  (w : World) :
  sendNotification provider now p w =
  if QuietHoursService.isWithinQuietHours (n_userId p) (timestamp p) (table w)
  then
    (Ok false,
     {| table := table w;
        notificationQueue :=
          <[n_userId p :=
              getQueuedNotifications (n_userId p) w
              ++ [{| payload := p; queuedAt := now |}]]>
            (notificationQueue w);
        pushes := pushes w |})
  else
    (match provider (pushes w) p with
     | Ok _ => Ok true
     | Throw e => Throw e
     end,
     {| table := table w;
        notificationQueue := notificationQueue w;
        pushes := pushes w ++ [(p, provider (pushes w) p)] |}).
Proof.
  unfold sendNotification, tryCatch, bind, isWithinQuietHours.
  destruct (QuietHoursService.isWithinQuietHours _ _ _); [reflexivity |].
  unfold deliverNotification, ret, throw.
  destruct (provider (pushes w) p) as [[] | e]; reflexivity.
Qed.

Lemma failedOf_In (now : Date) (tr : list Attempt)
  (queue : list QueuedNotification) (x : QueuedNotification) :
  In x (failedOf (attemptsOf provider now tr queue)) -> In x queue.
Proof.
  unfold failedOf. intros Hx. apply in_map_iff in Hx as (a & <- & Ha).
  apply filter_In in Ha as [Ha _].
  apply (attemptsOf_fresh provider now queue tr a Ha).
Qed.

Lemma send_keeps_well_formed (now : Date) (p : NotificationPayload)
  (w : World) :
  queuesWellFormed w ->
  queuesWellFormed (snd (sendNotification provider now p w)).
Proof.
  intros Hw. rewrite sendNotification_run.
  destruct (QuietHoursService.isWithinQuietHours _ _ _); [| exact Hw].
  intros u q. cbn [snd notificationQueue].
  destruct (decide (n_userId p = u)) as [<- | Hne].
  - rewrite lookup_insert_eq. intros [= <-].
    split; [destruct (getQueuedNotifications _ w); discriminate |].
    apply List.Forall_app. split; [| repeat constructor].
    unfold getQueuedNotifications.
    destruct (notificationQueue w !! n_userId p) as [old |] eqn:E;
      [apply (Hw _ _ E) | constructor].
  - rewrite lookup_insert_ne by exact Hne. apply Hw.
Qed.

Lemma sweep_keeps_well_formed (now : Date) (uid : string) (w : World) :
  queuesWellFormed w ->
  queuesWellFormed (snd (deliverQueuedNotifications provider now uid w)).
Proof.
  intros Hw. rewrite deliverQueuedNotifications_run.
  intros u q. cbn [snd notificationQueue].
  set (failed := failedOf _).
  destruct (decide (uid = u)) as [<- | Hne].
  - destruct failed as [| x l] eqn:Hfailed; cbn [length Nat.ltb Nat.leb].
    + rewrite lookup_delete_eq. discriminate.
    + rewrite lookup_insert_eq. intros [= <-]. split; [discriminate |].
      apply List.Forall_forall. intros y Hy.
      rewrite <- Hfailed in Hy. apply failedOf_In in Hy.
      unfold getQueuedNotifications in Hy.
      destruct (notificationQueue w !! uid) as [old |] eqn:E; [| destruct Hy].
      destruct (Hw _ _ E) as [_ Hall].
      rewrite List.Forall_forall in Hall. apply Hall. exact Hy.
  - destruct (Nat.ltb 0 (length failed));
      [rewrite lookup_insert_ne | rewrite lookup_delete_ne];
      try exact Hne; apply Hw.
Qed.

(** Submitting a notification and sweeping a queue keep the queue map
    well-formed: no user is stored with an empty queue, and a queue holds
    only notifications addressed to its user. *)
Theorem queues_stay_well_formed (now : Date) (p : NotificationPayload)
  (uid : string) (w : World) :
  queuesWellFormed w ->
  queuesWellFormed (snd (sendNotification provider now p w)) /\
  queuesWellFormed (snd (deliverQueuedNotifications provider now uid w)).
Proof.
  intros Hw. split;
    [apply send_keeps_well_formed | apply sweep_keeps_well_formed]; exact Hw.
Qed.

(** Two notifications submitted for a user in quiet hours are queued behind
    what is queued, in the order of submission, and a later sweep calls the
    provider for the unexpired items in that order. *)
Theorem queued_in_order (t1 t2 now : Date) (p1 p2 : NotificationPayload)
  (w : World) :
  n_userId p1 = n_userId p2 ->
  QuietHoursService.isWithinQuietHours (n_userId p1) (timestamp p1) (table w)
    = true ->
  QuietHoursService.isWithinQuietHours (n_userId p2) (timestamp p2) (table w)
    = true ->
  let w1 := snd (sendNotification provider t1 p1 w) in
  let w2 := snd (sendNotification provider t2 p2 w1) in
  let w3 := snd (deliverQueuedNotifications provider now (n_userId p1) w2) in
  let queue :=
    getQueuedNotifications (n_userId p1) w
    ++ [{| payload := p1; queuedAt := t1 |};
        {| payload := p2; queuedAt := t2 |}] in
  getQueuedNotifications (n_userId p1) w2 = queue /\
  exists calls,
    pushes w3 = pushes w ++ calls /\
    List.map fst calls = List.map payload (fresh now queue).
Proof.
  intros Hsame Hq1 Hq2 w1 w2 w3 queue.
  assert (Hw1 : w1 =
    {| table := table w;
       notificationQueue :=
         <[n_userId p1 :=
             getQueuedNotifications (n_userId p1) w
             ++ [{| payload := p1; queuedAt := t1 |}]]> (notificationQueue w);
       pushes := pushes w |}).
  { subst w1. rewrite sendNotification_run, Hq1. reflexivity. }
  assert (Hqueue : getQueuedNotifications (n_userId p1) w2 = queue).
  { subst w2. rewrite sendNotification_run, Hw1. cbn [table].
    rewrite Hq2. cbn [snd]. unfold getQueuedNotifications.
    cbn [notificationQueue]. rewrite <- Hsame.
    rewrite !lookup_insert_eq. unfold queue, getQueuedNotifications.
    simpl. rewrite <- app_assoc. reflexivity. }
  split; [exact Hqueue |].
  assert (Hpushes : pushes w2 = pushes w).
  { subst w2. rewrite sendNotification_run, Hw1. cbn [table].
    rewrite Hq2. reflexivity. }
  subst w3. rewrite deliverQueuedNotifications_run. cbn [snd pushes].
  rewrite Hqueue, Hpushes. eexists. split; [reflexivity |].
  unfold recorded. rewrite <- (attemptsOf_items provider now queue (pushes w)).
  rewrite !List.map_map. reflexivity.
Qed.

(** A sweep calls the provider for every queued item whose deadline is not
    strictly before the current date: an item without a deadline, with an
    invalid deadline, or with the deadline at this very millisecond. *)
Theorem sweep_tries_unexpired (now : Date) (uid : string) (w : World)
  (x : QueuedNotification) :
  In x (getQueuedNotifications uid w) ->
  (forall d a b,
     relevanceExpiresAt (payload x) = Some d ->
     getTime d = Int a -> getTime now = Int b -> b <= a) ->
  let w' := snd (deliverQueuedNotifications provider now uid w) in
  exists calls outcome,
    pushes w' = pushes w ++ calls /\ In (payload x, outcome) calls.
Proof.
  intros Hin Hdeadline w'. subst w'.
  rewrite deliverQueuedNotifications_run. cbn [snd pushes].
  assert (Hfresh : isExpired now x = false).
  { apply not_true_is_false. intros Hexp.
    apply isExpired_true in Hexp as (d & a & b & Hd & Ha & Hb & Hlt).
    specialize (Hdeadline d a b Hd Ha Hb). lia. }
  assert (Hx : In x (fresh now (getQueuedNotifications uid w))).
  { apply filter_In. rewrite Hfresh. split; [exact Hin | reflexivity]. }
  rewrite <- (attemptsOf_items provider now _ (pushes w)) in Hx.
  apply in_map_iff in Hx as (a & <- & Ha).
  eexists. exists (snd a). split; [reflexivity |].
  unfold recorded. apply in_map_iff. exists a. split; [reflexivity | exact Ha].
Qed.

(** A notification whose timestamp is an invalid date is never queued: the
    provider is called at once and every queue stays as it is. *)
Theorem invalid_timestamp_sent_at_once (now : Date)
  (p : NotificationPayload) (w : World) :
  getTime (timestamp p) = NaN ->
  let w' := snd (sendNotification provider now p w) in
  notificationQueue w' = notificationQueue w /\
  pushes w' = pushes w ++ [(p, provider (pushes w) p)].
Proof.
  intros Hinvalid w'. subst w'. rewrite sendNotification_run.
  rewrite (quiet_needs_minute _ _ _ Hinvalid). split; reflexivity.
Qed.

Lemma sweep_frame (now : Date) (uid : string) (w : World) :
  let w' := snd (deliverQueuedNotifications provider now uid w) in
  table w' = table w /\
  (forall u, u <> uid ->
     notificationQueue w' !! u = notificationQueue w !! u) /\
  (notificationQueue w !! uid = None ->
   notificationQueue w' !! uid = None /\ pushes w' = pushes w).
Proof.
  intros w'. subst w'. rewrite deliverQueuedNotifications_run.
  cbn [snd table notificationQueue pushes]. split; [reflexivity | split].
  - intros u Hu.
    destruct (Nat.ltb 0 (length _));
      [rewrite lookup_insert_ne | rewrite lookup_delete_ne]; congruence.
  - intros Hnone. unfold getQueuedNotifications. rewrite Hnone.
    cbn. rewrite lookup_delete_eq, app_nil_r. split; reflexivity.
Qed.

Lemma processAll_step (k : string) (now sweepNow : Date)
  (rest : list (string * (Date * Date))) (w : World) :
  Scheduler.processAllQueuedNotifications provider
    ((k, (now, sweepNow)) :: rest) w =
  Scheduler.processAllQueuedNotifications provider rest
    (if QuietHoursService.isWithinQuietHours k now (table w) then w
     else snd (deliverQueuedNotifications provider sweepNow k w)).
Proof.
  cbn [Scheduler.processAllQueuedNotifications].
  unfold bind at 1. unfold isWithinQuietHours.
  destruct (QuietHoursService.isWithinQuietHours k now (table w));
    cbn [negb]; unfold bind, ret; [reflexivity |].
  rewrite deliverQueuedNotifications_run. reflexivity.
Qed.

Lemma processAll_keeps_none (keys : list (string * (Date * Date))) :
  forall (u : string) (w : World),
    notificationQueue w !! u = None ->
    notificationQueue
      (snd (Scheduler.processAllQueuedNotifications provider keys w)) !! u
    = None.
Proof.
  induction keys as [| [k [now sweepNow]] rest IH]; intros u w Hnone;
    [exact Hnone |].
  rewrite processAll_step. apply IH.
  destruct (QuietHoursService.isWithinQuietHours k now (table w));
    [exact Hnone |].
  destruct (sweep_frame sweepNow k w) as (_ & Hothers & Hsame).
  destruct (decide (u = k)) as [-> | Hne].
  - apply Hsame. exact Hnone.
  - rewrite Hothers by exact Hne. exact Hnone.
Qed.

(** A scheduler run respects quiet hours: it resolves, leaves the table as
    it is, leaves the queue of every user alone who is in quiet hours at each
    of their checks, and calls the provider only with notifications of users
    who were outside quiet hours at a check of theirs. *)
Theorem scheduler_respects_quiet_hours
  (keys : list (string * (Date * Date))) :
  forall w : World,
    queuesWellFormed w ->
    let run := Scheduler.processAllQueuedNotifications provider keys w in
    fst run = Ok tt /\
    table (snd run) = table w /\
    (forall u,
       (forall now sweepNow,
          In (u, (now, sweepNow)) keys ->
          QuietHoursService.isWithinQuietHours u now (table w) = true) ->
       notificationQueue (snd run) !! u = notificationQueue w !! u) /\
    exists calls,
      pushes (snd run) = pushes w ++ calls /\
      forall c, In c calls ->
        exists now sweepNow,
          In (n_userId (fst c), (now, sweepNow)) keys /\
          QuietHoursService.isWithinQuietHours (n_userId (fst c)) now (table w)
            = false.
Proof.
  induction keys as [| [k [now sweepNow]] rest IH]; intros w Hw run.
  - subst run. cbn. repeat split; try reflexivity.
    exists []. rewrite app_nil_r. split; [reflexivity | intros c []].
  - subst run. rewrite processAll_step.
    destruct (QuietHoursService.isWithinQuietHours k now (table w)) eqn:Hquiet.
    + destruct (IH w Hw) as (Hok & Htable & Hframe & calls & Hpushes & Hcalls).
      split; [exact Hok | split; [exact Htable | split]].
      * intros u Hu. apply Hframe. intros n sn Hin. apply (Hu n sn).
        right. exact Hin.
      * exists calls. split; [exact Hpushes |].
        intros c Hc. destruct (Hcalls c Hc) as (n & sn & Hin & Hq).
        exists n, sn. split; [right; exact Hin | exact Hq].
    + pose proof (sweep_keeps_well_formed sweepNow k w Hw) as Hw1.
      destruct (sweep_frame sweepNow k w) as (Htable1 & Hothers & _).
      set (w1 := snd (deliverQueuedNotifications provider sweepNow k w)) in *.
      destruct (IH w1 Hw1) as (Hok & Htable & Hframe & calls & Hpushes & Hcalls).
      split; [exact Hok | split; [congruence | split]].
      * intros u Hu.
        assert (Hne : u <> k).
        { intros ->. specialize (Hu now sweepNow (or_introl eq_refl)).
          congruence. }
        rewrite Hframe.
        -- apply Hothers. exact Hne.
        -- intros n sn Hin. rewrite Htable1. apply (Hu n sn). right. exact Hin.
      * assert (Hpushes1 : pushes w1 = pushes w ++ recorded
                  (attemptsOf provider sweepNow (pushes w)
                     (getQueuedNotifications k w))).
        { subst w1. rewrite deliverQueuedNotifications_run. reflexivity. }
        eexists. split; [rewrite Hpushes, Hpushes1, <- app_assoc; reflexivity |].
        intros c Hc. apply in_app_iff in Hc as [Hc | Hc].
        -- unfold recorded in Hc. apply in_map_iff in Hc as (a & <- & Ha).
           apply (attemptsOf_fresh provider) in Ha as [Ha _].
           cbn [fst]. unfold getQueuedNotifications in Ha.
           destruct (notificationQueue w !! k) as [q |] eqn:E; [| destruct Ha].
           destruct (Hw _ _ E) as [_ Hall].
           rewrite List.Forall_forall in Hall. rewrite (Hall _ Ha).
           exists now, sweepNow. split; [left; reflexivity | exact Hquiet].
        -- destruct (Hcalls c Hc) as (n & sn & Hin & Hq).
           exists n, sn. split; [right; exact Hin | congruence].
Qed.

End Queues.

(** ** Runs of the queues *)

Section QueueRuns.

Import NotificationService.

Lemma queues_stay_well_formed_witness :
  queuesWellFormed
    (snd (deliverQueuedNotifications unreliable morning "u1" night)).
Proof.
  apply (queues_stay_well_formed unreliable morning hello "u1" night).
  intros u q. unfold night. cbn [notificationQueue].
  destruct (decide ("u1" = u)) as [<- | Hne].
  - rewrite lookup_singleton_eq. intros [= <-].
    split; [discriminate | repeat constructor].
  - rewrite lookup_singleton_ne by exact Hne. discriminate.
Defined.

Lemma queued_in_order_witness :
  let w1 := snd (sendNotification simulated (mkDate (Int 1704151816000))
                   hello idle) in
  let w2 := snd (sendNotification simulated (mkDate (Int 1704151817000))
                   stale w1) in
  getQueuedNotifications "u1" w2 =
  [held hello; {| payload := stale; queuedAt := mkDate (Int 1704151817000) |}].
Proof.
  apply (queued_in_order simulated (mkDate (Int 1704151816000))
           (mkDate (Int 1704151817000)) morning hello stale idle);
    reflexivity.
Defined.

Lemma sweep_tries_unexpired_witness :
  let w' := snd (deliverQueuedNotifications unreliable morning "u1" night) in
  exists calls outcome,
    pushes w' = pushes night ++ calls /\ In (down, outcome) calls.
Proof.
  apply (sweep_tries_unexpired unreliable morning "u1" night (held down)).
  - right. left. reflexivity.
  - intros d a b Hd. discriminate.
Defined.

Lemma invalid_timestamp_sent_at_once_witness :
  let p := {| n_userId := "u1"; n_message := "hello"; n_data := None;
              timestamp := mkDate NaN; relevanceExpiresAt := None |} in
  let w' := snd (sendNotification simulated morning p idle) in
  notificationQueue w' = notificationQueue idle /\
  pushes w' = [(p, Ok tt)].
Proof.
  apply (invalid_timestamp_sent_at_once simulated morning
           {| n_userId := "u1"; n_message := "hello"; n_data := None;
              timestamp := mkDate NaN; relevanceExpiresAt := None |} idle).
  reflexivity.
Defined.

Lemma scheduler_respects_quiet_hours_witness :
  let run :=
    Scheduler.processAllQueuedNotifications unreliable
      [("u1", (mkDate (Int 1704151815123), morning))] night in
  fst run = Ok tt /\
  notificationQueue (snd run) !! "u1" = notificationQueue night !! "u1".
Proof.
  destruct (scheduler_respects_quiet_hours unreliable
              [("u1", (mkDate (Int 1704151815123), morning))] night)
    as (Hok & _ & Hframe & _).
  - intros u q. unfold night. cbn [notificationQueue].
    destruct (decide ("u1" = u)) as [<- | Hne].
    + rewrite lookup_singleton_eq. intros [= <-].
      split; [discriminate | repeat constructor].
    + rewrite lookup_singleton_ne by exact Hne. discriminate.
  - split; [exact Hok |]. apply Hframe.
    intros now sweepNow [[= <- <-] | []]. reflexivity.
Defined.

Lemma simulated_resolves (now : Date) (queue : list QueuedNotification) :
  forall tr a, In a (attemptsOf simulated now tr queue) -> snd a = Ok tt.
Proof.
  induction queue as [| x rest IH]; intros tr a; cbn [attemptsOf]; [intros [] |].
  destruct (isExpired now x); [apply IH |].
  intros [<- | Ha]; [reflexivity | apply (IH _ _ Ha)].
Qed.

Lemma simulated_sweep (now : Date) (tr : list Attempt)
  (queue : list QueuedNotification) :
  failedOf (attemptsOf simulated now tr queue) = [] /\
  deliveredOf (attemptsOf simulated now tr queue)
    = Z.of_nat (length (fresh now queue)).
Proof.
  pose proof (simulated_resolves now queue tr) as Hall.
  rewrite <- (attemptsOf_items simulated now queue tr), length_map.
  unfold failedOf, deliveredOf.
  induction (attemptsOf simulated now tr queue) as [| a l IH];
    [split; reflexivity |].
  cbn [List.filter]. rewrite (Hall a (or_introl eq_refl)).
  cbn [resolved negb length].
  destruct (IH (fun b Hb => Hall b (or_intror Hb))) as [-> Hcount].
  split; [reflexivity |]. apply Nat2Z.inj in Hcount. rewrite Hcount.
  reflexivity.
Qed.

Lemma shipped_queue_gone (now : Date) (uid : string) (w : World) :
  notificationQueue
    (snd (deliverQueuedNotifications simulated now uid w)) !! uid = None.
Proof.
  rewrite deliverQueuedNotifications_run.
  rewrite (proj1 (simulated_sweep now (pushes w)
                    (getQueuedNotifications uid w))).
  cbn [snd notificationQueue length Nat.ltb Nat.leb].
  apply lookup_delete_eq.
Qed.

(** With the provider the repository ships, a sweep resolves to the number
    of unexpired items, removes the user's entry, and a further sweep of that
    user, at any time, resolves to 0 and changes nothing. *)
Theorem shipped_sweep_empties (now later : Date) (uid : string) (w : World) :
  let run := deliverQueuedNotifications simulated now uid w in
  fst run
    = Ok (Z.of_nat (length (fresh now (getQueuedNotifications uid w)))) /\
  notificationQueue (snd run) !! uid = None /\
  deliverQueuedNotifications simulated later uid (snd run) = (Ok 0, snd run).
Proof.
  intros run. subst run. rewrite deliverQueuedNotifications_run.
  destruct (simulated_sweep now (pushes w) (getQueuedNotifications uid w))
    as [Hfailed Hcount].
  rewrite Hfailed, Hcount. cbn [fst snd length Nat.ltb Nat.leb].
  cbn [notificationQueue]. rewrite lookup_delete_eq.
  split; [reflexivity | split; [reflexivity |]].
  rewrite deliverQueuedNotifications_run.
  unfold getQueuedNotifications. cbn [notificationQueue table pushes].
  rewrite lookup_delete_eq. cbn.
  rewrite delete_delete_eq, app_nil_r. reflexivity.
Qed.

(** With the shipped provider a scheduler run removes the entry of every
    user it finds outside quiet hours at one of their checks. *)
Theorem scheduler_drains_awake_users
  (keys : list (string * (Date * Date))) :
  forall (w : World) (u : string) (now sweepNow : Date),
    In (u, (now, sweepNow)) keys ->
    QuietHoursService.isWithinQuietHours u now (table w) = false ->
    notificationQueue
      (snd (Scheduler.processAllQueuedNotifications simulated keys w)) !! u
    = None.
Proof.
  induction keys as [| [k [n sn]] rest IH]; intros w u now sweepNow Hin Hawake;
    [destruct Hin |].
  rewrite processAll_step.
  destruct Hin as [[= -> -> ->] | Hin].
  - rewrite Hawake. apply processAll_keeps_none.
    apply (shipped_queue_gone sweepNow u w).
  - apply (IH _ u now sweepNow Hin).
    destruct (QuietHoursService.isWithinQuietHours k n (table w));
      [exact Hawake |].
    rewrite (proj1 (sweep_frame simulated sn k w)). exact Hawake.
Qed.

Lemma scheduler_drains_awake_users_witness :
  notificationQueue
    (snd (Scheduler.processAllQueuedNotifications simulated
            [("u1", (morning, morning))] night)) !! "u1"
  = None.
Proof.
  apply (scheduler_drains_awake_users [("u1", (morning, morning))] night "u1"
           morning morning).
  - left. reflexivity.
  - reflexivity.
Defined.

End QueueRuns.
